(** * Word Cloud Generator (app.py): a shallow embedding and its properties

    The Streamlit script [app.py] is a single top-to-bottom pipeline:
    sidebar widgets, mask loading, text acquisition (typed text or PDF
    extraction), the call of the word-cloud renderer and the frequency
    report (table, CSV export, bar chart).

    The script is embedded as a computation in a small trace-and-exception
    monad.  Python values are modelled as the interpreter has them:
    [str] is a sequence of Unicode code points, [float] is IEEE-754
    binary64 ([spec_float] with precision 53 and [emax] 1024), [int] is
    [Z], an insertion-ordered [dict] that is iterated is an association
    list, a [dict] that is only looked up is a [gmap].  The libraries the
    script calls (PyMuPDF, Pillow, wordcloud, matplotlib) are fields of a
    record [World]. *)

From Stdlib Require Import ZArith NArith List Lia Bool Ascii String Sorted Permutation.
From Stdlib Require Import DecimalZ DecimalPos.
From Stdlib Require Import Floats.SpecFloat.
From stdpp Require Import base option list gmap.

Local Open Scope Z_scope.

(* ===================================================================== *)
(** * Part I: definitions                                                 *)
(* ===================================================================== *)

(** ** Python strings *)

Module Py.

(** A [str] is a sequence of code points. *)
Definition char := N.
Definition str := list N.

(** String literals of the script, all ASCII. *)
Definition lit (s : string) : str :=
  List.map N_of_ascii (list_ascii_of_string s).

(** [str.isspace] for one code point: the characters CPython's
    [_PyUnicode_IsWhitespace] accepts. *)
Definition isspace (c : char) : bool :=
  ((9 <=? c) && (c <=? 13) || (28 <=? c) && (c <=? 32)
   || (c =? 133) || (c =? 160) || (c =? 5760)
   || (8192 <=? c) && (c <=? 8202)
   || (c =? 8232) || (c =? 8233) || (c =? 8239) || (c =? 8287)
   || (c =? 12288))%N.

Fixpoint lstrip (s : str) : str :=
  match s with
  | c :: s' => if isspace c then lstrip s' else s
  | [] => []
  end.

Definition rstrip (s : str) : str := rev (lstrip (rev s)).

(** [s.strip()] *)
Definition strip (s : str) : str := rstrip (lstrip s).

(** Truth value of a string in a condition. *)
Definition truthy (s : str) : bool :=
  match s with [] => false | _ => true end.

(** [sep.join(parts)] *)
Fixpoint join (sep : str) (parts : list str) : str :=
  match parts with
  | [] => []
  | [p] => p
  | p :: ps => p ++ sep ++ join sep ps
  end.

(** [s.lower()] on the ASCII letters (the script lower-cases only the
    labels of its own select box). *)
Definition lower_char (c : char) : char :=
  if ((65 <=? c) && (c <=? 90))%N then (c + 32)%N else c.
Definition lower (s : str) : str := List.map lower_char s.

Definition eqb (a b : str) : bool := bool_decide (a = b).

(** [s.endswith(suffix)] *)
Definition endswith (s suffix : str) : bool :=
  bool_decide (drop (length s - length suffix)%nat s = suffix).

(** ** Sorting: [sorted(l, key=..., reverse=...)]

    [sorted] is stable.  With [reverse=True] CPython reverses the list,
    sorts it stably in ascending key order and reverses the result, so
    that equal keys keep their original order. *)
Section Sorted.
Context {A : Type} (key : A -> Z).

Fixpoint insert_asc (x : A) (l : list A) : list A :=
  match l with
  | [] => [x]
  | y :: l' => if key x <=? key y then x :: l else y :: insert_asc x l'
  end.

Fixpoint sort_asc (l : list A) : list A :=
  match l with
  | [] => []
  | x :: l' => insert_asc x (sort_asc l')
  end.

Definition sorted (reverse : bool) (l : list A) : list A :=
  if reverse then rev (sort_asc (rev l)) else sort_asc l.
End Sorted.

End Py.

Abbreviation str := Py.str.
Abbreviation lit := Py.lit.

(** ** Exceptions and results of library calls *)

Inductive exn :=
| FileNotFoundError (path : str)      (* OSError: no such file *)
| UnidentifiedImageError              (* Pillow: not an image *)
| FileDataError                       (* PyMuPDF: cannot open the stream as a document *)
| ValueError (msg : str)              (* wordcloud: nothing to draw, ... *)
| UnicodeEncodeError                  (* str.encode: a lone surrogate *)
| KeyError (key : str).

Inductive result (A : Type) :=
| Ok (a : A)
| Raise (e : exn).
Arguments Ok {A} a.
Arguments Raise {A} e.

(** I/O error kind: the [OSError] family. *)
Definition is_io_error (e : exn) : bool :=
  match e with FileNotFoundError _ => true | _ => false end.

(** Parse error kind: the input bytes are not a document. *)
Definition is_parse_error (e : exn) : bool :=
  match e with FileDataError => true | _ => false end.

(** ** Python floats: IEEE-754 binary64 *)

Module PyFloat.

Definition prec : Z := 53.
Definition emax : Z := 1024.

Definition float := spec_float.

Definition mul : float -> float -> float := SFmul prec emax.
Definition leb : float -> float -> bool := SFleb.
Definition valid : float -> bool := valid_binary prec emax.

(** Conversion of an [int] operand ([freq * 100] multiplies by 100.0). *)
Definition of_int (z : Z) : float := binary_normalize prec emax z 0 false.

Definition zero : float := S754_zero false.
Definition one : float := of_int 1.
Definition hundred : float := of_int 100.

(** The integer nearest to [num / den], ties to the even one
    ([den] positive, [num] non-negative). *)
Definition round_half_even (num den : Z) : Z :=
  let q := num / den in
  let r := num mod den in
  match 2 * r ?= den with
  | Lt => q
  | Gt => q + 1
  | Eq => if Z.even q then q else q + 1
  end.

(** The double nearest to [n * 10^e10] ([n >= 0]) with sign [s]: the
    correctly rounded conversion of a decimal numeral to a double. *)
Definition of_decimal (s : bool) (n : Z) (e10 : Z) : float :=
  match n, e10 with
  | Z0, _ => S754_zero s
  | Zneg _, _ => S754_nan
  | Zpos p, Zneg k =>
      let '(mz, ez, lz) := SFdiv_core_binary prec emax n 0 (10 ^ Zpos k) 0 in
      binary_round_aux prec emax s mz ez lz
  | Zpos p, _ => binary_round prec emax s (Z.to_pos (n * 10 ^ e10)) 0
  end.

(** [round(x, ndigits)] for [ndigits >= 0]: CPython prints [x]
    correctly rounded (ties to even on the exact value) to [ndigits]
    decimal places and converts that numeral back to a double. *)
Definition round (x : float) (ndigits : N) : float :=
  match x with
  | S754_finite s m e =>
      let p := 10 ^ Z.of_N ndigits in
      let n := match e with
               | Zneg _ => round_half_even (Zpos m * p) (2 ^ (- e))
               | _ => Zpos m * 2 ^ e * p
               end in
      of_decimal s n (- Z.of_N ndigits)
  | _ => x
  end.

(** [a / b] on two [int]s. *)
Definition truediv (a b : Z) : float := SFdiv prec emax (of_int a) (of_int b).

End PyFloat.

Abbreviation float := PyFloat.float.

(** ** Pillow images and numpy arrays *)

Module PIL.

(** The 8-bit modes a PNG file decodes to. *)
Inductive Mode := L | LA | RGB | RGBA.

Definition bands (m : Mode) : nat :=
  match m with L => 1 | LA => 2 | RGB => 3 | RGBA => 4 end%nat.

(** An image: its mode, its size and one tuple of band values per
    pixel, row by row. *)
Record Image := {
  mode : Mode;
  width : nat;
  height : nat;
  pixels : list (list Z)
}.

(** [img.convert("L")]: one luminance band.  [luma r g b] is Pillow's
    ITU-R 601-2 transform of a colour pixel; an alpha band is dropped. *)
Definition to_L (luma : Z -> Z -> Z -> Z) (m : Mode) (px : list Z) : list Z :=
  match m, px with
  | L, _ => px
  | LA, l :: _ => [l]
  | (RGB | RGBA), r :: g :: b :: _ => [luma r g b]
  | _, _ => px
  end.

Definition convert_L (luma : Z -> Z -> Z -> Z) (img : Image) : Image :=
  {| mode := L; width := width img; height := height img;
     pixels := List.map (to_L luma (mode img)) (pixels img) |}.

End PIL.

Module np.

Record ndarray := { shape : list nat; flat : list Z }.

(** [np.array(img)]: height x width for a single-band image,
    height x width x bands otherwise. *)
Definition array (img : PIL.Image) : ndarray :=
  {| shape := match PIL.bands (PIL.mode img) with
              | 1%nat => [PIL.height img; PIL.width img]
              | b => [PIL.height img; PIL.width img; b]
              end;
     flat := concat (PIL.pixels img) |}.

Definition ndim (a : ndarray) : nat := length (shape a).

End np.

(** ** Text forms of numbers: [str(int)] and [repr(float)] *)

#[global] Instance spec_float_eq_dec : EqDecision spec_float.
Proof. solve_decision. Defined.

Module PyRepr.
Import PyFloat.

Fixpoint digits_of_uint (d : Decimal.uint) : str :=
  match d with
  | Decimal.Nil => []
  | Decimal.D0 d => 48%N :: digits_of_uint d
  | Decimal.D1 d => 49%N :: digits_of_uint d
  | Decimal.D2 d => 50%N :: digits_of_uint d
  | Decimal.D3 d => 51%N :: digits_of_uint d
  | Decimal.D4 d => 52%N :: digits_of_uint d
  | Decimal.D5 d => 53%N :: digits_of_uint d
  | Decimal.D6 d => 54%N :: digits_of_uint d
  | Decimal.D7 d => 55%N :: digits_of_uint d
  | Decimal.D8 d => 56%N :: digits_of_uint d
  | Decimal.D9 d => 57%N :: digits_of_uint d
  end.

(** [str(z)] for an [int]. *)
Definition str_of_int (z : Z) : str :=
  match Z.to_int z with
  | Decimal.Pos d => digits_of_uint d
  | Decimal.Neg d => 45%N :: digits_of_uint d
  end.

(** [num / den < 10^p] *)
Definition lt_pow10 (num den p : Z) : bool :=
  match p with
  | Zneg _ => num * 10 ^ (- p) <? den
  | _ => num <? 10 ^ p * den
  end.

(** The position of the decimal point: the [p] with
    [10^(p-1) <= num/den < 10^p], searched upwards from an
    under-estimate obtained from the binary logarithms. *)
Fixpoint find_decpt (fuel : nat) (num den p : Z) : Z :=
  match fuel with
  | O => p
  | S fuel' => if lt_pow10 num den p then p else find_decpt fuel' num den (p + 1)
  end.

Definition decpt_of (num den : Z) : Z :=
  find_decpt 8 num den ((Z.log2 num - Z.log2 den - 1) * 30103 / 100000 - 1).

(** The two [k]-digit decimals around [num/den]: the lower one [lo],
    scaled by [10^s], and what is left of [num/den] above it. *)
Definition scaled (num den s : Z) : Z * Z * Z :=
  match s with
  | Zpos _ => (num / (den * 10 ^ s), num mod (den * 10 ^ s), den * 10 ^ s)
  | _ => ((num * 10 ^ (- s)) / den, (num * 10 ^ (- s)) mod den, den)
  end.

(** The shortest decimal [D * 10^s] that converts back to [x]; when
    both neighbours of [x] with [k] digits do, the nearer one. *)
Fixpoint shortest (fuel : nat) (x : float) (num den decpt : Z) (k : Z) : Z * Z :=
  let s := decpt - k in
  let '(lo, r, d) := scaled num den s in
  match fuel with
  | O => (match 2 * r ?= d with
          | Lt => lo
          | Gt => lo + 1
          | Eq => if Z.even lo then lo else lo + 1
          end, s)
  | S fuel' =>
      let ok_lo := bool_decide (of_decimal false lo s = x) in
      let ok_hi := bool_decide (of_decimal false (lo + 1) s = x) in
      if (r =? 0) && ok_lo then (lo, s)
      else if ok_lo && ok_hi then
             (match 2 * r ?= d with
              | Lt => lo
              | Gt => lo + 1
              | Eq => if Z.even lo then lo else lo + 1
              end, s)
      else if ok_lo then (lo, s)
      else if ok_hi then (lo + 1, s)
      else shortest fuel' x num den decpt (k + 1)
  end.

Fixpoint strip_zeros (fuel : nat) (D s : Z) : Z * Z :=
  match fuel with
  | O => (D, s)
  | S fuel' => if (D mod 10 =? 0) && negb (D =? 0)
               then strip_zeros fuel' (D / 10) (s + 1) else (D, s)
  end.

Definition zeros (n : Z) : str := repeat 48%N (Z.to_nat n).

(** Layout of the digits [ds] with the decimal point after [decpt]
    digits: plain notation for [-4 < decpt <= 16], exponent notation
    otherwise. *)
Definition layout (ds : str) (decpt : Z) : str :=
  let n := Z.of_nat (length ds) in
  if (decpt <=? -4) || (16 <? decpt) then
    let ex := decpt - 1 in
    let exs := digits_of_uint (N.to_uint (Z.to_N (Z.abs ex))) in
    take 1 ds ++ (if 1 <? n then 46%N :: drop 1 ds else [])
      ++ [101%N; if ex <? 0 then 45%N else 43%N]
      ++ (if Z.abs ex <? 10 then 48%N :: exs else exs)
  else if decpt <=? 0 then
    [48%N; 46%N] ++ zeros (- decpt) ++ ds
  else if n <=? decpt then
    ds ++ zeros (decpt - n) ++ [46%N; 48%N]
  else
    take (Z.to_nat decpt) ds ++ 46%N :: drop (Z.to_nat decpt) ds.

Definition sign_str (s : bool) : str := if s then [45%N] else [].

(** [repr(x)] *)
Definition repr (x : float) : str :=
  match x with
  | S754_nan => lit "nan"
  | S754_infinity s => sign_str s ++ lit "inf"
  | S754_zero s => sign_str s ++ lit "0.0"
  | S754_finite s m e =>
      let num := match e with Zneg _ => Zpos m | _ => Zpos m * 2 ^ e end in
      let den := match e with Zneg _ => 2 ^ (- e) | _ => 1 end in
      let '(D, s10) := shortest 16 (S754_finite false m e) num den (decpt_of num den) 1 in
      let '(D, s10) := strip_zeros 20 D s10 in
      let ds := digits_of_uint (N.to_uint (Z.to_N D)) in
      sign_str s ++ layout ds (Z.of_nat (length ds) + s10)
  end.

(** UTF-8: [s.encode("utf-8")].  Lone surrogates cannot be encoded. *)
Definition byte_of (n : N) : Byte.byte :=
  match Byte.of_N n with Some b => b | None => Byte.x00 end.

Definition utf8_char (c : N) : option (list Byte.byte) :=
  (if c <? 128 then Some [byte_of c]
   else if c <? 2048 then
     Some [byte_of (192 + c / 64); byte_of (128 + c mod 64)]
   else if (55296 <=? c) && (c <=? 57343) then None
   else if c <? 65536 then
     Some [byte_of (224 + c / 4096); byte_of (128 + (c / 64) mod 64);
           byte_of (128 + c mod 64)]
   else if c <? 1114112 then
     Some [byte_of (240 + c / 262144); byte_of (128 + (c / 4096) mod 64);
           byte_of (128 + (c / 64) mod 64); byte_of (128 + c mod 64)]
   else None)%N.

Fixpoint utf8 (s : str) : option (list Byte.byte) :=
  match s with
  | [] => Some []
  | c :: s' =>
      match utf8_char c, utf8 s' with
      | Some b, Some bs => Some (b ++ bs)
      | _, _ => None
      end
  end.

End PyRepr.

(** ** pandas: the data frame of the export and [to_csv] *)

Module pd.

Inductive cell :=
| CStr (s : str)
| CInt (z : Z)
| CFloat (x : float).

(** A record of the input list: a [dict] with its keys in insertion order. *)
Definition record := list (str * cell).

Record DataFrame_t := { columns : list str; values : list (list cell) }.

(** [pd.DataFrame(data)] for a list of records that all have the same
    keys: the columns are the keys, in order; no record, no column. *)
Definition DataFrame (data : list record) : DataFrame_t :=
  {| columns := match data with [] => [] | r :: _ => List.map fst r end;
     values := List.map (List.map snd) data |}.

Fixpoint index_of (c : str) (cols : list str) : option nat :=
  match cols with
  | [] => None
  | c' :: cols' => if Py.eqb c c' then Some O else S <$> index_of c cols'
  end.

(** [df[c]]: the column, or [KeyError]. *)
Definition getitem (df : DataFrame_t) (c : str) : result (list cell) :=
  match index_of c (columns df) with
  | Some k => Ok (omap (fun row => row !! k) (values df))
  | None => Raise (KeyError c)
  end.

(** Text of a cell in the CSV output; a missing value ([nan]) is empty. *)
Definition cell_text (c : cell) : str :=
  match c with
  | CStr s => s
  | CInt z => PyRepr.str_of_int z
  | CFloat S754_nan => []
  | CFloat x => PyRepr.repr x
  end.

Definition delimiter : N := 44.   (* , *)
Definition quotechar : N := 34.
Definition lineterminator : str := [10%N].

(** Minimal quoting of the csv writer: a field is quoted when it holds
    the delimiter, the quote character or a character of the line
    terminator; a quote character inside is doubled. *)
Definition special (c : N) : bool :=
  (c =? delimiter)%N || (c =? quotechar)%N || bool_decide (c ∈ lineterminator).

Definition escape (c : N) : str :=
  if (c =? quotechar)%N then [quotechar; quotechar] else [c].

Definition quote_minimal (f : str) : str :=
  if existsb special f
  then quotechar :: concat (List.map escape f) ++ [quotechar]
  else f.

Definition writerow (fields : list str) : str :=
  Py.join [delimiter] (List.map quote_minimal fields) ++ lineterminator.

(** [df.to_csv(index=False)]: the header row, then one row per record. *)
Definition to_csv (df : DataFrame_t) : str :=
  writerow (columns df)
    ++ concat (List.map (fun row => writerow (List.map cell_text row)) (values df)).

End pd.

(** ** The libraries and the machine the script runs on *)

Abbreviation bytes := (list Byte.byte).

#[global] Instance byte_eq_dec : EqDecision Byte.byte := Byte.byte_eq_dec.

(** Arguments of the [WordCloud(...)] constructor, the mask apart. *)
Record Config := {
  cfg_width : Z;
  cfg_height : Z;
  background_color : str;
  cfg_max_words : Z;
  cfg_colormap : str;
  font_path : option str
}.

(** What the script reads from a generated [WordCloud] object. *)
Record WordCloud := {
  words_ : list (str * float);    (* dict word -> weight, in insertion order *)
  to_image : PIL.Image
}.

Record World := {
  Page : Type;
  (** [os.listdir]: [None] when there is no such directory *)
  listdir : str -> option (list str);
  (** content of a file on disk, [None] when it does not exist *)
  read_file : str -> option bytes;
  (** Pillow's decoder, [None] when the bytes are no image *)
  decode_image : bytes -> option PIL.Image;
  luma : Z -> Z -> Z -> Z;
  (** PyMuPDF: the pages of a document, [None] when the stream cannot be
      opened as one *)
  fitz_open : bytes -> option (list Page);
  get_text : Page -> str;
  (** [WordCloud(...).generate(text)]; the first argument is the state
      of the random generator the object draws its layout from *)
  WordCloud_generate : N -> Config -> option np.ndarray -> str -> result WordCloud;
  (** [wc.process_text(text)]: dict word -> number of occurrences *)
  process_text : str -> gmap str Z;
  (** PNG encoding of an image *)
  save_png : PIL.Image -> bytes
}.

(** Values of the widgets in one run of the script. *)
Record Inputs := {
  bg_color : str;
  max_words : Z;
  width : Z;
  height : Z;
  colormap : str;
  font_choice : str;
  shape : str;
  uploaded_mask : option bytes;
  input_method : str;
  text_area_value : str;
  uploaded_pdf : option bytes;
  button : bool
}.

(** One row of the frequency table: the dict with the keys [Word],
    [Raw Count] and [Normalized Frequency (%)]. *)
Record Row := {
  Word : str;
  Raw_Count : Z;
  Normalized_Frequency : float
}.

#[global] Instance Row_eq_dec : EqDecision Row.
Proof. solve_decision. Defined.

Definition Row_items (r : Row) : pd.record :=
  [ (lit "Word", pd.CStr (Word r));
    (lit "Raw Count", pd.CInt (Raw_Count r));
    (lit "Normalized Frequency (%)", pd.CFloat (Normalized_Frequency r)) ].

(** ** What a run shows on the page *)

Inductive Figure :=
| imshow (figsize : float * float) (img : PIL.Image)
| barh (figsize : float * float) (y widths : list pd.cell) (xlabel title : str).

Inductive Event :=
| title (s : str)
| sidebar_header (s : str)
| widget (label : str)                 (* an input widget *)
| text_area (label value : str)
| success (msg : str)
| pyplot (fig : Figure)
| download_button (label : str) (data : bytes) (file_name mime : str)
| subheader (s : str)
| markdown (s : str)
| dataframe (data : list Row)
| exception (e : exn).                 (* the error box of an uncaught exception *)

(** Results of a successful generation: image, table, chart, downloads. *)
Definition is_artifact (ev : Event) : bool :=
  match ev with
  | pyplot _ | download_button _ _ _ _ | dataframe _ => true
  | _ => false
  end.

(** ** The script monad: a trace of what was shown, and exceptions *)

Inductive outcome (A : Type) :=
| Returned (a : A)
| Uncaught (e : exn).
Arguments Returned {A} a.
Arguments Uncaught {A} e.

Definition Script (A : Type) : Type := list Event -> list Event * outcome A.

#[global] Instance Script_ret : MRet Script :=
  fun A a t => (t, Returned a).

#[global] Instance Script_bind : MBind Script :=
  fun A B f m t =>
    match m t with
    | (t', Returned a) => f a t'
    | (t', Uncaught e) => (t', Uncaught e)
    end.

#[global] Instance result_ret : MRet result := fun A a => Ok a.

#[global] Instance result_bind : MBind result :=
  fun A B f m => match m with Ok a => f a | Raise e => Raise e end.

(** A [st.*] call that shows something. *)
Definition emit (ev : Event) : Script unit :=
  fun t => (t ++ [ev], Returned tt).

(** A library call that may raise. *)
Definition call {A} (r : result A) : Script A :=
  fun t => (t, match r with Ok a => Returned a | Raise e => Uncaught e end).

(** ** The script *)

Section App.
Context (W : World).

(** [Image.open(fp)] on an uploaded stream and on a path. *)
Definition Image_open_stream (b : bytes) : result PIL.Image :=
  match decode_image W b with
  | Some img => Ok img
  | None => Raise UnidentifiedImageError
  end.

Definition Image_open_path (path : str) : result PIL.Image :=
  match read_file W path with
  | Some b => Image_open_stream b
  | None => Raise (FileNotFoundError path)
  end.

(** [load_mask()], lines 50-58; the two globals it reads are its
    arguments.  An uploaded file object is always true in a condition. *)
Definition load_mask (uploaded_mask : option bytes) (shape : str)
  : result (option np.ndarray) :=
  match uploaded_mask with
  | Some f =>
      img ← Image_open_stream f;
      mret (Some (np.array (PIL.convert_L (luma W) img)))
  | None =>
      if negb (Py.eqb shape (lit "None")) then
        let path := lit "masks/" ++ Py.lower shape ++ lit ".png" in
        img ← Image_open_path path;
        mret (Some (np.array img))
      else mret None
  end.

(** [os.path.join(a, b)] (POSIX) *)
Definition path_join (a b : str) : str :=
  match b with
  | 47%N :: _ => b
  | _ => if Py.truthy a && negb (Py.endswith a [47%N]) then a ++ 47%N :: b else a ++ b
  end.

(** Lines 12-44: page set-up and the sidebar. *)
Definition sidebar (i : Inputs) : Script Config :=
  emit (title ([127781%N; 65039%N] ++ lit " Word Cloud Generator"));;
  emit (sidebar_header (127912%N :: lit " Design Options"));;
  emit (widget (lit "Background Color"));;
  emit (widget (lit "Max Words"));;
  emit (widget (lit "Image Width"));;
  emit (widget (lit "Image Height"));;
  emit (widget (lit "Color Scheme"));;
  font_files ← call (match listdir W (lit "fonts") with
                     | Some fs => Ok (List.filter (fun f => Py.endswith f (lit ".ttf")) fs)
                     | None => Raise (FileNotFoundError (lit "fonts"))
                     end);
  emit (widget (lit "Font"));;
  let font_path :=
    if negb (Py.eqb (font_choice i) (lit "Default"))
    then Some (path_join (lit "fonts") (font_choice i)) else None in
  emit (widget (lit "Built-in Shape"));;
  emit (widget (lit "Or upload custom mask (PNG)"));;
  mret {| cfg_width := width i; cfg_height := height i;
          background_color := bg_color i; cfg_max_words := max_words i;
          cfg_colormap := colormap i;
          font_path := match font_path with
                       | Some p => if Py.truthy p then Some p else None
                       | None => None
                       end |}.

(** Lines 64-82: the text, typed or extracted from the uploaded PDF. *)
Definition acquire_text (i : Inputs) : Script str :=
  emit (sidebar_header (128196%N :: lit " Input Source"));;
  emit (widget (lit "Choose:"));;
  if Py.eqb (input_method i) (lit "Text") then
    emit (text_area (lit "Enter your text below:") (text_area_value i));;
    mret (text_area_value i)
  else if Py.eqb (input_method i) (lit "PDF Upload") then
    emit (widget (lit "Upload PDF"));;
    match uploaded_pdf i with
    | Some stream =>
        doc ← call (match fitz_open W stream with
                    | Some d => Ok d
                    | None => Raise FileDataError
                    end);
        let pdf_text := Py.join [] (List.map (get_text W) doc) in
        emit (success (lit "PDF text extracted successfully."));;
        emit (text_area (lit "Extracted Text:") pdf_text);;
        mret pdf_text
    | None => mret []
    end
  else mret [].

(** Lines 122-137: the frequency table. *)
Definition freq_data (normalized_freqs : list (str * float))
    (raw_counts : gmap str Z) : list Row :=
  List.map (fun '(word, freq) =>
              {| Word := word;
                 Raw_Count := default 0 (raw_counts !! word);
                 Normalized_Frequency :=
                   PyFloat.round (PyFloat.mul freq (PyFloat.of_int 100)) 2 |})
           normalized_freqs.

Definition top10 (data : list Row) : list Row :=
  take 10 (Py.sorted Raw_Count true data).

(** [df_export.to_csv(index=False).encode("utf-8")] *)
Definition export_csv (data : list Row) : result bytes :=
  match PyRepr.utf8 (pd.to_csv (pd.DataFrame (List.map Row_items data))) with
  | Some b => Ok b
  | None => Raise UnicodeEncodeError
  end.

(** Lines 88-172: generation, gated by the button and the text. *)
Definition generate (seed : N) (i : Inputs) (cfg : Config) (text_input : str)
  : Script unit :=
  emit (widget (lit "Generate Word Cloud"));;
  if button i && Py.truthy (Py.strip text_input) then
    mask ← call (load_mask (uploaded_mask i) (shape i));
    wc ← call (WordCloud_generate W seed cfg mask text_input);
    emit (pyplot (imshow (PyFloat.truediv (width i) 100, PyFloat.truediv (height i) 100)
                         (to_image wc)));;
    emit (download_button (128229%N :: lit " Download Word Cloud as PNG")
            (save_png W (to_image wc)) (lit "word_cloud.png") (lit "image/png"));;
    emit (subheader (128202%N :: lit " Word Frequency Table"));;
    let normalized_freqs := words_ wc in
    let raw_counts := process_text W text_input in
    let table := top10 (freq_data normalized_freqs raw_counts) in
    emit (dataframe table);;
    csv ← call (export_csv table);
    emit (download_button (128196%N :: lit " Download CSV") csv
            (lit "word_frequencies.csv") (lit "text/csv"));;
    emit (markdown (lit "**" ++ 128200%N :: lit " Top 10 Words (Bar Chart)**"));;
    let df_bar := pd.DataFrame (List.map Row_items table) in
    y ← call (pd.getitem df_bar (lit "Word"));
    widths ← call (pd.getitem df_bar (lit "Raw Count"));
    emit (pyplot (barh (PyFloat.of_int 5, PyFloat.of_decimal false 45 (-1))
                       y widths (lit "Raw Count") (lit "Top 10 Words")))
  else mret tt.

(** The whole script. *)
Definition app (seed : N) (i : Inputs) : Script unit :=
  cfg ← sidebar i;
  text_input ← acquire_text i;
  generate seed i cfg text_input.

(** A run under Streamlit, starting from an empty page: what ends up
    on the page.  The script runner shows an uncaught exception in an
    error box and stops the run there. *)
Definition streamlit_run (seed : N) (i : Inputs) : list Event :=
  match app seed i [] with
  | (t, Returned _) => t
  | (t, Uncaught e) => t ++ [exception e]
  end.

End App.

(** What the sidebar shows when the fonts directory exists. *)
Definition sidebar_page : list Event :=
  [ title ([127781%N; 65039%N] ++ lit " Word Cloud Generator");
    sidebar_header (127912%N :: lit " Design Options");
    widget (lit "Background Color"); widget (lit "Max Words");
    widget (lit "Image Width"); widget (lit "Image Height");
    widget (lit "Color Scheme"); widget (lit "Font");
    widget (lit "Built-in Shape"); widget (lit "Or upload custom mask (PNG)") ].

(** The part of the page the input stage adds in PDF mode before it
    opens the document. *)
Definition pdf_input_page : list Event :=
  [ sidebar_header (128196%N :: lit " Input Source");
    widget (lit "Choose:"); widget (lit "Upload PDF") ].

Definition generate_button : Event := widget (lit "Generate Word Cloud").

(** Path of the picture of a built-in shape. *)
Definition mask_path (shape : str) : str :=
  lit "masks/" ++ Py.lower shape ++ lit ".png".

(** ** Doubles between 0 and 100

    [cap e] is the mantissa of 100 at exponent [e]; [le_hundred x] says
    that [x] is a zero or a positive double with exponent at most that
    of 100.0 and value at most 100. *)
Definition cap (e : Z) : Z := 100 * 2 ^ (- e).

Definition le_hundred (x : float) : Prop :=
  match x with
  | S754_zero _ => True
  | S754_finite false m e => e <= -46 /\ Zpos m <= cap e
  | _ => False
  end.



(** ** The export as text *)

(** A code point that UTF-8 can encode: a Unicode scalar value. *)
Definition scalar (c : N) : bool :=
  ((c <? 55296) || (57343 <? c) && (c <? 1114112))%N.

(** The header and the fields of the line of a row in the export. *)
Definition header : list str :=
  [lit "Word"; lit "Raw Count"; lit "Normalized Frequency (%)"].

Definition row_fields (r : Row) : list str :=
  [Word r; PyRepr.str_of_int (Raw_Count r); PyRepr.repr (Normalized_Frequency r)].

Definition csv_line (r : Row) : str := pd.writerow (row_fields r).

(** ** Reading the export back

    The script only writes the CSV file; the reader below is the
    counterpart the specification appeals to when it speaks of parsing
    the export. *)

Module Reader.

(** Modelled from the spec: the UTF-8 decoder of the reader of the
    exported file, which is not part of the script. *)
Fixpoint utf8_decode (b : list N) : option str :=
  match b with
  | [] => Some []
  | b0 :: r =>
      if (b0 <? 128)%N then cons b0 <$> utf8_decode r
      else if (b0 <? 224)%N then
        match r with
        | b1 :: r => cons ((b0 - 192) * 64 + (b1 - 128))%N <$> utf8_decode r
        | _ => None
        end
      else if (b0 <? 240)%N then
        match r with
        | b1 :: b2 :: r =>
            cons ((b0 - 224) * 4096 + (b1 - 128) * 64 + (b2 - 128))%N <$> utf8_decode r
        | _ => None
        end
      else
        match r with
        | b1 :: b2 :: b3 :: r =>
            cons ((b0 - 240) * 262144 + (b1 - 128) * 4096
                  + (b2 - 128) * 64 + (b3 - 128))%N <$> utf8_decode r
        | _ => None
        end
  end.

Definition decode (b : bytes) : option str :=
  utf8_decode (List.map Byte.to_N b).

Inductive state := FieldStart | Unquoted | Quoted | QuoteSeen.

Definition end_field (q : state) (field : str) (row : list str) : list str :=
  match q, field, row with
  | FieldStart, _, [] => []
  | _, _, _ => row ++ [field]
  end.

(** Modelled from the spec: a reader for the dialect of the export
    (comma, double quote, doubled quotes inside quoted fields, every
    record closed by a line feed).  An empty line is a record without
    fields. *)
Fixpoint records (q : state) (field : str) (row : list str) (s : str)
  : option (list (list str)) :=
  match s with
  | [] => match q, row with FieldStart, [] => Some [] | _, _ => None end
  | c :: s' =>
      match q with
      | Quoted =>
          if (c =? pd.quotechar)%N then records QuoteSeen field row s'
          else records Quoted (field ++ [c]) row s'
      | _ =>
          if (c =? pd.delimiter)%N then records FieldStart [] (row ++ [field]) s'
          else if (c =? 10)%N then cons (end_field q field row) <$> records FieldStart [] [] s'
          else if (c =? pd.quotechar)%N then
            match q with
            | FieldStart => records Quoted [] row s'
            | QuoteSeen => records Quoted (field ++ [c]) row s'
            | _ => None
            end
          else
            match q with
            | QuoteSeen => None
            | _ => records Unquoted (field ++ [c]) row s'
            end
      end
  end.

Definition digit (c : N) : option Z :=
  if ((48 <=? c) && (c <=? 57))%N then Some (Z.of_N c - 48) else None.

(** Value of a non-empty run of decimal digits, after [acc]. *)
Fixpoint number (acc : Z) (s : str) : option Z :=
  match s with
  | [] => Some acc
  | c :: s' => d ← digit c; number (10 * acc + d) s'
  end.

Definition unsigned (s : str) : option Z :=
  match s with [] => None | _ => number 0 s end.

(** Modelled from the spec: [int(s)] on a decimal numeral. *)
Definition int_of_str (s : str) : option Z :=
  match s with
  | 45%N :: s' => Z.opp <$> unsigned s'
  | _ => unsigned s
  end.

(** Splits [s] at the first occurrence of [c]. *)
Fixpoint split_at (c : N) (s : str) : str * option str :=
  match s with
  | [] => ([], None)
  | x :: s' =>
      if (x =? c)%N then ([], Some s')
      else let '(a, b) := split_at c s' in (x :: a, b)
  end.

(** Modelled from the spec: [float(s)] on the numerals [repr] writes:
    an optional sign, digits, an optional fraction, an optional
    exponent; the value is the nearest double. *)
Definition float_of_str (s : str) : option float :=
  let '(sign, s) := match s with 45%N :: s' => (true, s') | _ => (false, s) end in
  if Py.eqb s (lit "nan") then Some S754_nan
  else if Py.eqb s (lit "inf") then Some (S754_infinity sign)
  else
    let '(mant, ex) := split_at 101 s in
    let '(ip, fp) := split_at 46 mant in
    let fp := default [] fp in
    D ← unsigned (ip ++ fp);
    e ← match ex with
        | None => Some 0
        | Some (43%N :: e) => unsigned e
        | Some e => int_of_str e
        end;
    Some (PyFloat.of_decimal sign D (e - Z.of_nat (length fp))).

(** Modelled from the spec: one data record of the export as a table
    row, the three columns read as [str], [int] and [float]. *)
Definition row_of_record (r : list str) : option Row :=
  match r with
  | [w; c; f] =>
      c ← int_of_str c;
      f ← float_of_str f;
      Some {| Word := w; Raw_Count := c; Normalized_Frequency := f |}
  | _ => None
  end.

(** Modelled from the spec: parsing the exported bytes: the header and
    the rows. *)
Definition read_csv (b : bytes) : option (list str * list Row) :=
  text ← decode b;
  rs ← records FieldStart [] [] text;
  match rs with
  | header :: rs => rows ← mapM row_of_record rs; Some (header, rows)
  | [] => None
  end.

End Reader.

(** The text of a double is read back as that double and holds only
    characters that can be encoded. *)
Definition float_text_ok (x : float) : bool :=
  let text := PyRepr.repr x in
  bool_decide (Reader.float_of_str text = Some x) && forallb scalar text.

(** A row whose word can be encoded and whose frequency is written and
    read back without loss. *)
Definition exportable (r : Row) : Prop :=
  forallb scalar (Word r) = true
  /\ float_text_ok (Normalized_Frequency r) = true
  /\ Normalized_Frequency r <> S754_nan.

(** ** A small concrete world, for examples *)

Module Demo.

Definition cat : str := lit "cat".
Definition dog : str := lit "dog".

Definition circle_png : bytes := [Byte.x89; Byte.x50; Byte.x4e; Byte.x47].

(** A one-pixel colour picture. *)
Definition circle : PIL.Image :=
  {| PIL.mode := PIL.RGB; PIL.width := 1; PIL.height := 1;
     PIL.pixels := [[255; 255; 255]] |}.

Definition pillow_luma (r g b : Z) : Z :=
  Z.shiftr (r * 19595 + g * 38470 + b * 7471 + 32768) 16.

Definition cloud : WordCloud :=
  {| words_ := [(cat, PyFloat.one); (dog, PyFloat.of_decimal false 5 (-1))];
     to_image := circle |}.

(** The fonts directory holds one font, the masks directory only the
    circle; a stream is a document when it starts with a percent sign;
    the renderer finds the two words of "cat cat dog". *)
Definition world : World :=
  {| Page := str;
     listdir := fun d =>
       if Py.eqb d (lit "fonts") then Some [lit "Roboto.ttf"; lit "README.md"] else None;
     read_file := fun p =>
       if Py.eqb p (lit "masks/circle.png") then Some circle_png else None;
     decode_image := fun b => if bool_decide (b = circle_png) then Some circle else None;
     luma := pillow_luma;
     fitz_open := fun b =>
       match b with
       | Byte.x25 :: _ => Some [lit "cat cat "; lit "dog"]
       | _ => None
       end;
     get_text := fun p => p;
     WordCloud_generate := fun _ _ _ text =>
       if Py.truthy (Py.strip text) then Ok cloud
       else Raise (ValueError (lit "We need at least 1 word to plot a word cloud, got 0."));
     process_text := fun _ => {[ cat := 2; dog := 1 ]};
     save_png := fun _ => circle_png |}.

Definition inputs : Inputs :=
  {| bg_color := lit "#ffffff"; max_words := 200; width := 800; height := 400;
     colormap := lit "viridis"; font_choice := lit "Default";
     shape := lit "None"; uploaded_mask := None;
     input_method := lit "Text"; text_area_value := lit "cat cat dog";
     uploaded_pdf := None; button := true |}.

Definition with_mask (up : option bytes) (sh : str) (i : Inputs) : Inputs :=
  {| bg_color := bg_color i; max_words := max_words i; width := width i;
     height := height i; colormap := colormap i; font_choice := font_choice i;
     shape := sh; uploaded_mask := up;
     input_method := input_method i; text_area_value := text_area_value i;
     uploaded_pdf := uploaded_pdf i; button := button i |}.

Definition with_text (s : str) (i : Inputs) : Inputs :=
  {| bg_color := bg_color i; max_words := max_words i; width := width i;
     height := height i; colormap := colormap i; font_choice := font_choice i;
     shape := shape i; uploaded_mask := uploaded_mask i;
     input_method := lit "Text"; text_area_value := s;
     uploaded_pdf := None; button := button i |}.

Definition with_pdf (b : bytes) (i : Inputs) : Inputs :=
  {| bg_color := bg_color i; max_words := max_words i; width := width i;
     height := height i; colormap := colormap i; font_choice := font_choice i;
     shape := shape i; uploaded_mask := uploaded_mask i;
     input_method := lit "PDF Upload"; text_area_value := [];
     uploaded_pdf := Some b; button := button i |}.

End Demo.

(** ** The pages of a run *)

(** The arguments the script passes to the renderer, lines 93-101, in
    terms of the values of the widgets. *)
Definition config_of (i : Inputs) : Config :=
  {| cfg_width := width i; cfg_height := height i;
     background_color := bg_color i; cfg_max_words := max_words i;
     cfg_colormap := colormap i;
     font_path := if Py.eqb (font_choice i) (lit "Default") then None
                  else Some (path_join (lit "fonts") (font_choice i)) |}.

Definition is_exception (ev : Event) : bool :=
  match ev with exception _ => true | _ => false end.

(** The results a page shows: images, tables, charts and downloads. *)
Definition outputs (page : list Event) : list Event := List.filter is_artifact page.

(** The renderer is deterministic for fixed input: its result does not
    depend on the state of its random generator. *)
Definition renderer_deterministic (W : World) : Prop :=
  forall s s' cfg mask text,
    WordCloud_generate W s cfg mask text = WordCloud_generate W s' cfg mask text.

(** Two machines run the same word-cloud engine and PNG encoder. *)
Definition same_engine (W1 W2 : World) : Prop :=
  (forall s cfg mask text,
      WordCloud_generate W1 s cfg mask text = WordCloud_generate W2 s cfg mask text)
  /\ (forall text, process_text W1 text = process_text W2 text)
  /\ (forall img, save_png W1 img = save_png W2 img).

(** What a generation has added to the page once the renderer has
    returned: the button, the image, its download, the table. *)
Definition rendered_page (W : World) (i : Inputs) (wc : WordCloud)
    (table : list Row) : list Event :=
  [ generate_button;
    pyplot (imshow (PyFloat.truediv (width i) 100, PyFloat.truediv (height i) 100)
                   (to_image wc));
    download_button (128229%N :: lit " Download Word Cloud as PNG")
      (save_png W (to_image wc)) (lit "word_cloud.png") (lit "image/png");
    subheader (128202%N :: lit " Word Frequency Table");
    dataframe table ].

(** What a generation that succeeds adds to the page. *)
Definition result_page (W : World) (i : Inputs) (wc : WordCloud)
    (table : list Row) (csv : bytes) : list Event :=
  rendered_page W i wc table
    ++ [ download_button (128196%N :: lit " Download CSV") csv
           (lit "word_frequencies.csv") (lit "text/csv");
         markdown (lit "**" ++ 128200%N :: lit " Top 10 Words (Bar Chart)**");
         pyplot (barh (PyFloat.of_int 5, PyFloat.of_decimal false 45 (-1))
                      (List.map (fun r => pd.CStr (Word r)) table)
                      (List.map (fun r => pd.CInt (Raw_Count r)) table)
                      (lit "Raw Count") (lit "Top 10 Words")) ].

(** What the page holds when the fonts directory is missing. *)
Definition no_fonts_page : list Event :=
  [ title ([127781%N; 65039%N] ++ lit " Word Cloud Generator");
    sidebar_header (127912%N :: lit " Design Options");
    widget (lit "Background Color"); widget (lit "Max Words");
    widget (lit "Image Width"); widget (lit "Image Height");
    widget (lit "Color Scheme");
    exception (FileNotFoundError (lit "fonts")) ].

(** ** More concrete worlds and inputs, for examples *)

Module Demo2.

(** The world of [Demo] without its fonts directory. *)
Definition no_fonts : World :=
  {| Page := Page Demo.world;
     listdir := fun _ => None;
     read_file := read_file Demo.world;
     decode_image := decode_image Demo.world;
     luma := luma Demo.world;
     fitz_open := fitz_open Demo.world;
     get_text := get_text Demo.world;
     WordCloud_generate := WordCloud_generate Demo.world;
     process_text := process_text Demo.world;
     save_png := save_png Demo.world |}.

(** The world of [Demo] with a renderer that finds no word to draw. *)
Definition no_words : World :=
  {| Page := Page Demo.world;
     listdir := listdir Demo.world;
     read_file := read_file Demo.world;
     decode_image := decode_image Demo.world;
     luma := luma Demo.world;
     fitz_open := fitz_open Demo.world;
     get_text := get_text Demo.world;
     WordCloud_generate := fun _ _ _ _ =>
       Raise (ValueError (lit "We need at least 1 word to plot a word cloud, got 0."));
     process_text := fun _ => ∅;
     save_png := save_png Demo.world |}.

(** Another machine with the libraries of [Demo]: an empty fonts
    directory, no mask file, and a document reader that finds three
    pages in every stream. *)
Definition other_machine : World :=
  {| Page := Page Demo.world;
     listdir := fun _ => Some [];
     read_file := fun _ => None;
     decode_image := decode_image Demo.world;
     luma := luma Demo.world;
     fitz_open := fun _ => Some [lit "cat "; lit "cat"; lit " dog"];
     get_text := get_text Demo.world;
     WordCloud_generate := WordCloud_generate Demo.world;
     process_text := process_text Demo.world;
     save_png := save_png Demo.world |}.

(** The page before the button, in text mode. *)
Definition text_page (s : str) : list Event :=
  sidebar_page
    ++ [ sidebar_header (128196%N :: lit " Input Source"); widget (lit "Choose:");
         text_area (lit "Enter your text below:") s ].

(** PDF mode, the button pressed, no file uploaded. *)
Definition pdf_without_upload : Inputs :=
  {| bg_color := lit "#ffffff"; max_words := 200; width := 800; height := 400;
     colormap := lit "viridis"; font_choice := lit "Default";
     shape := lit "Circle"; uploaded_mask := None;
     input_method := lit "PDF Upload"; text_area_value := lit "ignored";
     uploaded_pdf := None; button := true |}.

(** The table of the text "cat cat dog". *)
Definition table : list Row :=
  [ {| Word := Demo.cat; Raw_Count := 2;
       Normalized_Frequency := PyFloat.of_decimal false 10000 (-2) |};
    {| Word := Demo.dog; Raw_Count := 1;
       Normalized_Frequency := PyFloat.of_decimal false 5000 (-2) |} ].

End Demo2.

(* ===================================================================== *)
(** * Part II: properties                                                 *)
(* ===================================================================== *)

(** ** The script monad *)

Lemma bind_returned {A B} (m : Script A) (f : A -> Script B) t t' a :
  m t = (t', Returned a) -> (m ≫= f) t = f a t'.
Proof. intros H. unfold mbind, Script_bind. now rewrite H. Qed.

Lemma bind_uncaught {A B} (m : Script A) (f : A -> Script B) t t' e :
  m t = (t', Uncaught e) -> (m ≫= f) t = (t', Uncaught e).
Proof. intros H. unfold mbind, Script_bind. now rewrite H. Qed.

Lemma emit_then {B} ev (k : Script B) t :
  (emit ev ≫= fun _ => k) t = k (t ++ [ev]).
Proof. reflexivity. Qed.

Lemma call_ok {A B} (a : A) (f : A -> Script B) t :
  (call (Ok a) ≫= f) t = f a t.
Proof. reflexivity. Qed.

Lemma call_raise {A B} e (f : A -> Script B) t :
  (call (Raise e) ≫= f) t = (t, Uncaught e).
Proof. reflexivity. Qed.

Lemma str_eqb_eq (a b : str) : Py.eqb a b = true <-> a = b.
Proof. unfold Py.eqb. apply bool_decide_eq_true. Qed.

Lemma str_eqb_neq (a b : str) : Py.eqb a b = false <-> a <> b.
Proof. unfold Py.eqb. apply bool_decide_eq_false. Qed.

Lemma sidebar_returns W i fs t :
  listdir W (lit "fonts") = Some fs ->
  exists cfg, sidebar W i t = (t ++ sidebar_page, Returned cfg).
Proof.
  intros H. unfold sidebar. rewrite !emit_then, H, call_ok, !emit_then.
  eexists. unfold mret, Script_ret. f_equal.
  rewrite <- !app_assoc. reflexivity.
Qed.

Lemma app_unfold W seed i t t1 t2 cfg text :
  sidebar W i t = (t1, Returned cfg) ->
  acquire_text W i t1 = (t2, Returned text) ->
  app W seed i t = generate W seed i cfg text t2.
Proof.
  intros H1 H2. unfold app.
  rewrite (bind_returned _ _ _ _ _ H1), (bind_returned _ _ _ _ _ H2). reflexivity.
Qed.

Lemma no_artifact_sidebar_page : existsb is_artifact sidebar_page = false.
Proof. reflexivity. Qed.

(** ** The mask loader *)

Lemma load_mask_uploaded W f shape img :
  decode_image W f = Some img ->
  load_mask W (Some f) shape
  = Ok (Some (np.array (PIL.convert_L (luma W) img))).
Proof. intros H. unfold load_mask, Image_open_stream. now rewrite H. Qed.

Lemma load_mask_builtin W shape b img :
  shape <> lit "None" ->
  read_file W (mask_path shape) = Some b ->
  decode_image W b = Some img ->
  load_mask W None shape = Ok (Some (np.array img)).
Proof.
  intros Hs Hr Hd. unfold load_mask.
  apply str_eqb_neq in Hs. rewrite Hs. cbn [negb].
  unfold Image_open_path, Image_open_stream. fold (mask_path shape).
  now rewrite Hr, Hd.
Qed.

Lemma load_mask_missing W shape :
  shape <> lit "None" ->
  read_file W (mask_path shape) = None ->
  load_mask W None shape = Raise (FileNotFoundError (mask_path shape)).
Proof.
  intros Hs Hr. unfold load_mask.
  apply str_eqb_neq in Hs. rewrite Hs. cbn [negb].
  unfold Image_open_path. fold (mask_path shape). now rewrite Hr.
Qed.

(** C3. The mask loader gives precedence to the upload: with an uploaded
    picture the result is that picture (as a grayscale array) whatever
    shape is selected; without an upload and with a shape other than
    "None" it is the picture stored for that shape; with neither it is
    [None]. *)
Theorem load_mask_precedence (W : World) :
  (forall f shape shape', load_mask W (Some f) shape = load_mask W (Some f) shape')
  /\ (forall f shape img,
        decode_image W f = Some img ->
        load_mask W (Some f) shape
        = Ok (Some (np.array (PIL.convert_L (luma W) img))))
  /\ (forall shape b img,
        shape <> lit "None" ->
        read_file W (mask_path shape) = Some b ->
        decode_image W b = Some img ->
        load_mask W None shape = Ok (Some (np.array img)))
  /\ load_mask W None (lit "None") = Ok None.
Proof.
  split; [reflexivity|].
  split; [apply load_mask_uploaded|].
  split; [apply load_mask_builtin|reflexivity].
Qed.

Lemma load_mask_precedence_witness :
  load_mask Demo.world (Some Demo.circle_png) (lit "Heart")
  = Ok (Some (np.array (PIL.convert_L Demo.pillow_luma Demo.circle)))
  /\ load_mask Demo.world None (lit "Circle") = Ok (Some (np.array Demo.circle))
  /\ load_mask Demo.world None (lit "None") = Ok None.
Proof.
  destruct (load_mask_precedence Demo.world) as (_ & Hup & Hshape & Hnone).
  split; [apply Hup; reflexivity|].
  split; [|exact Hnone].
  apply (Hshape (lit "Circle") Demo.circle_png); [discriminate|reflexivity|reflexivity].
Defined.

Lemma ndim_convert_L luma img : np.ndim (np.array (PIL.convert_L luma img)) = 2%nat.
Proof. reflexivity. Qed.

Lemma ndim_colour img :
  PIL.mode img <> PIL.L -> np.ndim (np.array img) = 3%nat.
Proof. destruct img as [[] w h px]; cbn; congruence. Qed.

(** C10. Only the upload goes through [convert("L")]: for one and the
    same picture, the upload reaches the renderer as a two-dimensional
    array of luminances, the built-in shape as the array of the picture
    as stored; when the picture is not already single-band the two
    arrays have different shapes. *)
Theorem mask_grayscale_only_for_upload (W : World) f shape shape' b img :
  decode_image W f = Some img ->
  shape <> lit "None" ->
  read_file W (mask_path shape) = Some b ->
  decode_image W b = Some img ->
  exists up builtin,
    load_mask W (Some f) shape' = Ok (Some up)
    /\ load_mask W None shape = Ok (Some builtin)
    /\ up = np.array (PIL.convert_L (luma W) img)
    /\ builtin = np.array img
    /\ np.ndim up = 2%nat
    /\ (PIL.mode img <> PIL.L ->
        np.ndim builtin = 3%nat /\ np.shape up <> np.shape builtin).
Proof.
  intros Hf Hs Hr Hb.
  exists (np.array (PIL.convert_L (luma W) img)), (np.array img).
  split; [now apply load_mask_uploaded|].
  split; [now apply load_mask_builtin with b|].
  do 2 (split; [reflexivity|]).
  split; [apply ndim_convert_L|].
  intros Hm. split; [now apply ndim_colour|].
  intros Heq. apply (f_equal (@length nat)) in Heq.
  change (np.ndim (np.array (PIL.convert_L (luma W) img)) = np.ndim (np.array img)) in Heq.
  rewrite ndim_convert_L, (ndim_colour _ Hm) in Heq. discriminate.
Qed.

Lemma mask_grayscale_only_for_upload_witness :
  exists up builtin,
    load_mask Demo.world (Some Demo.circle_png) (lit "None") = Ok (Some up)
    /\ load_mask Demo.world None (lit "Circle") = Ok (Some builtin)
    /\ np.shape up = [1; 1]%nat
    /\ np.shape builtin = [1; 1; 3]%nat.
Proof.
  destruct (mask_grayscale_only_for_upload Demo.world Demo.circle_png
              (lit "Circle") (lit "None") Demo.circle_png Demo.circle)
    as (up & builtin & H1 & H2 & -> & -> & _);
    [reflexivity|discriminate|reflexivity|reflexivity|].
  exists (np.array (PIL.convert_L (luma Demo.world) Demo.circle)), (np.array Demo.circle).
  repeat split; assumption || reflexivity.
Defined.

(** ** Stages before the generation show no result *)

Lemma acquire_text_shape W i t :
  exists evs o, acquire_text W i t = (t ++ evs, o) /\ existsb is_artifact evs = false.
Proof.
  unfold acquire_text. rewrite !emit_then.
  destruct (Py.eqb (input_method i) (lit "Text")).
  - rewrite emit_then. do 2 eexists. unfold mret, Script_ret.
    rewrite <- !app_assoc. split; reflexivity.
  - destruct (Py.eqb (input_method i) (lit "PDF Upload")).
    + rewrite emit_then. destruct (uploaded_pdf i) as [stream|].
      * destruct (fitz_open W stream) as [doc|].
        -- rewrite call_ok, !emit_then. do 2 eexists. unfold mret, Script_ret.
           rewrite <- !app_assoc. split; reflexivity.
        -- rewrite call_raise. do 2 eexists.
           rewrite <- !app_assoc. split; reflexivity.
      * do 2 eexists. unfold mret, Script_ret.
        rewrite <- !app_assoc. split; reflexivity.
    + do 2 eexists. unfold mret, Script_ret.
      rewrite <- !app_assoc. split; reflexivity.
Qed.

Lemma existsb_artifact_app (a b : list Event) :
  existsb is_artifact a = false -> existsb is_artifact b = false ->
  existsb is_artifact (a ++ b) = false.
Proof. intros Ha Hb. now rewrite existsb_app, Ha, Hb. Qed.

Lemma acquire_after_sidebar W i t2 o :
  acquire_text W i sidebar_page = (t2, o) -> existsb is_artifact t2 = false.
Proof.
  intros H. destruct (acquire_text_shape W i sidebar_page) as (evs & o' & E & Hevs).
  rewrite H in E. pose proof (f_equal fst E) as E1.
  change (t2 = sidebar_page ++ evs) in E1. rewrite E1.
  apply existsb_artifact_app; [reflexivity|assumption].
Qed.

Lemma run_unfold W seed i fs t2 text :
  listdir W (lit "fonts") = Some fs ->
  acquire_text W i sidebar_page = (t2, Returned text) ->
  exists cfg, app W seed i [] = generate W seed i cfg text t2.
Proof.
  intros Hl Ha. destruct (sidebar_returns W i fs [] Hl) as (cfg & Hs).
  exists cfg. now apply app_unfold with sidebar_page.
Qed.

Lemma run_uncaught_early W seed i fs t2 e :
  listdir W (lit "fonts") = Some fs ->
  acquire_text W i sidebar_page = (t2, Uncaught e) ->
  app W seed i [] = (t2, Uncaught e).
Proof.
  intros Hl Ha. destruct (sidebar_returns W i fs [] Hl) as (cfg & Hs).
  unfold app. rewrite (bind_returned _ _ _ _ _ Hs).
  now rewrite (bind_uncaught _ _ _ _ _ Ha).
Qed.

(** ** Whitespace *)

Lemma lstrip_nil_iff s : Py.lstrip s = [] <-> forallb Py.isspace s = true.
Proof.
  induction s as [|c s IH]; cbn; [tauto|].
  destruct (Py.isspace c); cbn; [exact IH|]. split; discriminate.
Qed.

Lemma lstrip_all_space s : forallb Py.isspace s = true -> Py.lstrip s = [].
Proof. apply lstrip_nil_iff. Qed.

Lemma lstrip_suffix s : exists p, s = p ++ Py.lstrip s /\ forallb Py.isspace p = true.
Proof.
  induction s as [|c s (p & E & Hp)]; [exists []; split; reflexivity|].
  cbn. destruct (Py.isspace c) eqn:Hc.
  - exists (c :: p). cbn. rewrite Hc, Hp. split; [now rewrite <- E|reflexivity].
  - exists []. split; reflexivity.
Qed.

Lemma forallb_rev' {A} (f : A -> bool) l : forallb f (rev l) = forallb f l.
Proof.
  induction l as [|a l IH]; [reflexivity|].
  cbn. rewrite forallb_app, IH. cbn. rewrite andb_true_r. apply andb_comm.
Qed.

(** [s.strip()] is empty exactly when [s] is empty or all whitespace. *)
Lemma strip_nil_iff s : Py.strip s = [] <-> forallb Py.isspace s = true.
Proof.
  unfold Py.strip, Py.rstrip. split.
  - intros H. apply (f_equal (@rev N)) in H. rewrite rev_involutive in H. cbn in H.
    apply lstrip_nil_iff in H. rewrite forallb_rev' in H.
    destruct (lstrip_suffix s) as (p & E & Hp).
    transitivity (forallb Py.isspace (p ++ Py.lstrip s)); [now rewrite <- E|].
    rewrite forallb_app. apply andb_true_intro. split; [exact Hp|exact H].
  - intros H. rewrite (lstrip_all_space s H). reflexivity.
Qed.

Lemma truthy_strip_false s :
  Py.truthy (Py.strip s) = false <-> forallb Py.isspace s = true.
Proof.
  rewrite <- strip_nil_iff. destruct (Py.strip s); cbn; split; congruence.
Qed.

(** ** The gate of the generation *)

Lemma generate_closed W seed i cfg text t :
  button i && Py.truthy (Py.strip text) = false ->
  generate W seed i cfg text t = (t ++ [generate_button], Returned tt).
Proof. intros H. unfold generate. rewrite emit_then, H. reflexivity. Qed.

Lemma page_of_returned W seed i t :
  app W seed i [] = (t, Returned tt) -> streamlit_run W seed i = t.
Proof. intros H. unfold streamlit_run. now rewrite H. Qed.

Lemma page_of_uncaught W seed i t e :
  app W seed i [] = (t, Uncaught e) -> streamlit_run W seed i = t ++ [exception e].
Proof. intros H. unfold streamlit_run. now rewrite H. Qed.

(** C2. When the acquired text is empty or all whitespace, a run with
    the button pressed (or not) ends normally and its page is the input
    part followed by the button: no image, table, chart or download,
    and no error box.  Conversely a page with anything more comes from
    a run with the button pressed and a text that is not blank. *)
Theorem blank_text_generates_nothing (W : World) seed i fs t2 text :
  listdir W (lit "fonts") = Some fs ->
  acquire_text W i sidebar_page = (t2, Returned text) ->
  (forallb Py.isspace text = true ->
     app W seed i [] = (t2 ++ [generate_button], Returned tt)
     /\ streamlit_run W seed i = t2 ++ [generate_button]
     /\ existsb is_artifact (streamlit_run W seed i) = false)
  /\ (streamlit_run W seed i <> t2 ++ [generate_button] ->
      button i = true /\ forallb Py.isspace text = false).
Proof.
  intros Hl Ha. destruct (run_unfold W seed i fs t2 text Hl Ha) as (cfg & Happ).
  split.
  - intros Hblank.
    assert (Hrun : app W seed i [] = (t2 ++ [generate_button], Returned tt)).
    { rewrite Happ. apply generate_closed.
      apply truthy_strip_false in Hblank. rewrite Hblank. apply andb_false_r. }
    split; [exact Hrun|]. rewrite (page_of_returned _ _ _ _ Hrun).
    split; [reflexivity|].
    apply existsb_artifact_app; [|reflexivity].
    now apply acquire_after_sidebar with W i (Returned text).
  - intros Hpage.
    destruct (button i && Py.truthy (Py.strip text)) eqn:G.
    + apply andb_true_iff in G as [Hb Ht]. split; [exact Hb|].
      destruct (forallb Py.isspace text) eqn:Hs; [|reflexivity].
      apply truthy_strip_false in Hs. congruence.
    + exfalso. apply Hpage. apply page_of_returned.
      rewrite Happ. now apply generate_closed.
Qed.

Lemma blank_text_generates_nothing_witness :
  streamlit_run Demo.world 7 (Demo.with_text (lit "  ") Demo.inputs)
  = sidebar_page
    ++ [ sidebar_header (128196%N :: lit " Input Source"); widget (lit "Choose:");
         text_area (lit "Enter your text below:") (lit "  ") ]
    ++ [generate_button].
Proof.
  destruct (blank_text_generates_nothing Demo.world 7
              (Demo.with_text (lit "  ") Demo.inputs)
              [lit "Roboto.ttf"; lit "README.md"]
              (sidebar_page
                 ++ [ sidebar_header (128196%N :: lit " Input Source");
                      widget (lit "Choose:");
                      text_area (lit "Enter your text below:") (lit "  ") ])
              (lit "  ") eq_refl eq_refl) as [H _].
  destruct (H eq_refl) as (_ & Hpage & _).
  rewrite Hpage. rewrite <- app_assoc. reflexivity.
Defined.

(** ** Text extraction *)

Lemma join_nil_concat (parts : list str) : Py.join [] parts = concat parts.
Proof.
  induction parts as [|p ps IH]; [reflexivity|].
  cbn [Py.join concat]. rewrite <- IH.
  destruct ps; [now rewrite app_nil_r|reflexivity].
Qed.

(** C8. In PDF mode the acquired text is the concatenation of the texts
    of the pages of the uploaded document, in page order, with nothing
    between two pages; that text is also what the page shows. *)
Theorem pdf_text_is_page_concatenation (W : World) i stream doc t :
  input_method i = lit "PDF Upload" ->
  uploaded_pdf i = Some stream ->
  fitz_open W stream = Some doc ->
  acquire_text W i t
  = (t ++ pdf_input_page
       ++ [ success (lit "PDF text extracted successfully.");
            text_area (lit "Extracted Text:") (concat (List.map (get_text W) doc)) ],
     Returned (concat (List.map (get_text W) doc))).
Proof.
  intros Hm Hu Ho. unfold acquire_text. rewrite !emit_then, Hm.
  change (Py.eqb (lit "PDF Upload") (lit "Text")) with false.
  change (Py.eqb (lit "PDF Upload") (lit "PDF Upload")) with true.
  cbv iota. rewrite emit_then, Hu, Ho, call_ok, !emit_then.
  rewrite join_nil_concat. unfold mret, Script_ret.
  rewrite <- !app_assoc. reflexivity.
Qed.

Lemma pdf_text_is_page_concatenation_witness :
  snd (acquire_text Demo.world (Demo.with_pdf [Byte.x25] Demo.inputs) [])
  = Returned (lit "cat cat dog").
Proof.
  rewrite (pdf_text_is_page_concatenation Demo.world
             (Demo.with_pdf [Byte.x25] Demo.inputs) [Byte.x25]
             [lit "cat cat "; lit "dog"] [] eq_refl eq_refl eq_refl).
  reflexivity.
Defined.

(** C6. An uploaded stream that PyMuPDF cannot open as a document makes
    the input stage raise a parse error; nothing catches it, so the run
    stops there: the page ends with the error box, right after the
    uploader, with no extracted text, no success message and no result
    of a generation. *)
Theorem invalid_document_is_reported (W : World) seed i fs stream :
  listdir W (lit "fonts") = Some fs ->
  input_method i = lit "PDF Upload" ->
  uploaded_pdf i = Some stream ->
  fitz_open W stream = None ->
  (forall t, acquire_text W i t = (t ++ pdf_input_page, Uncaught FileDataError))
  /\ is_parse_error FileDataError = true
  /\ app W seed i [] = (sidebar_page ++ pdf_input_page, Uncaught FileDataError)
  /\ streamlit_run W seed i
     = sidebar_page ++ pdf_input_page ++ [exception FileDataError]
  /\ (forall ev, In ev (streamlit_run W seed i) ->
        is_artifact ev = false
        /\ (forall l v, ev <> text_area l v)
        /\ (forall m, ev <> success m)).
Proof.
  intros Hl Hm Hu Ho.
  assert (Hacq : forall t, acquire_text W i t
                           = (t ++ pdf_input_page, Uncaught FileDataError)).
  { intros t. unfold acquire_text. rewrite !emit_then, Hm.
    change (Py.eqb (lit "PDF Upload") (lit "Text")) with false.
    change (Py.eqb (lit "PDF Upload") (lit "PDF Upload")) with true.
    cbv iota. rewrite emit_then, Hu, Ho, call_raise.
    rewrite <- !app_assoc. reflexivity. }
  assert (Happ : app W seed i []
                 = (sidebar_page ++ pdf_input_page, Uncaught FileDataError)).
  { apply run_uncaught_early with fs; [exact Hl|apply Hacq]. }
  assert (Hpage : streamlit_run W seed i
                  = sidebar_page ++ pdf_input_page ++ [exception FileDataError]).
  { rewrite (page_of_uncaught _ _ _ _ _ Happ). now rewrite <- app_assoc. }
  do 4 (split; [assumption || reflexivity|]).
  intros ev Hin. rewrite Hpage in Hin.
  cbn in Hin. repeat (destruct Hin as [<-|Hin]; [repeat split; discriminate|]).
  destruct Hin.
Qed.

Lemma invalid_document_is_reported_witness :
  streamlit_run Demo.world 7 (Demo.with_pdf [Byte.x00] Demo.inputs)
  = sidebar_page ++ pdf_input_page ++ [exception FileDataError].
Proof.
  apply (invalid_document_is_reported Demo.world 7
           (Demo.with_pdf [Byte.x00] Demo.inputs)
           [lit "Roboto.ttf"; lit "README.md"] [Byte.x00]
           eq_refl eq_refl eq_refl eq_refl).
Defined.

(** ** A missing mask file *)

Lemma generate_mask_error W seed i cfg text t e :
  button i = true ->
  forallb Py.isspace text = false ->
  load_mask W (uploaded_mask i) (shape i) = Raise e ->
  generate W seed i cfg text t = (t ++ [generate_button], Uncaught e).
Proof.
  intros Hb Ht Hm. unfold generate. rewrite emit_then, Hb.
  destruct (Py.truthy (Py.strip text)) eqn:G.
  - cbn [andb]. now rewrite Hm, call_raise.
  - apply truthy_strip_false in G. congruence.
Qed.

(** C7. With no upload, a built-in shape selected and no file for that
    shape, the mask loader raises [FileNotFoundError], an I/O error.
    In a run that reaches the generation nothing catches it: the run
    stops before the renderer is called and the page ends with the
    error box right after the button, without any result. *)
Theorem missing_mask_file_is_reported (W : World) seed i fs t2 text :
  uploaded_mask i = None ->
  shape i <> lit "None" ->
  read_file W (mask_path (shape i)) = None ->
  listdir W (lit "fonts") = Some fs ->
  acquire_text W i sidebar_page = (t2, Returned text) ->
  button i = true ->
  forallb Py.isspace text = false ->
  load_mask W (uploaded_mask i) (shape i)
  = Raise (FileNotFoundError (mask_path (shape i)))
  /\ is_io_error (FileNotFoundError (mask_path (shape i))) = true
  /\ app W seed i []
     = (t2 ++ [generate_button], Uncaught (FileNotFoundError (mask_path (shape i))))
  /\ streamlit_run W seed i
     = t2 ++ [generate_button; exception (FileNotFoundError (mask_path (shape i)))]
  /\ existsb is_artifact (streamlit_run W seed i) = false.
Proof.
  intros Hu Hs Hr Hl Ha Hb Ht.
  assert (Hm : load_mask W (uploaded_mask i) (shape i)
               = Raise (FileNotFoundError (mask_path (shape i)))).
  { rewrite Hu. now apply load_mask_missing. }
  destruct (run_unfold W seed i fs t2 text Hl Ha) as (cfg & Happ).
  rewrite (generate_mask_error _ _ _ _ _ _ _ Hb Ht Hm) in Happ.
  assert (Hpage : streamlit_run W seed i
                  = t2 ++ [generate_button;
                           exception (FileNotFoundError (mask_path (shape i)))]).
  { rewrite (page_of_uncaught _ _ _ _ _ Happ). now rewrite <- app_assoc. }
  do 4 (split; [assumption || reflexivity|]).
  rewrite Hpage. apply existsb_artifact_app; [|reflexivity].
  now apply acquire_after_sidebar with W i (Returned text).
Qed.

Lemma missing_mask_file_is_reported_witness :
  streamlit_run Demo.world 7 (Demo.with_mask None (lit "Heart") Demo.inputs)
  = (sidebar_page
       ++ [ sidebar_header (128196%N :: lit " Input Source"); widget (lit "Choose:");
            text_area (lit "Enter your text below:") (lit "cat cat dog") ])
    ++ [generate_button; exception (FileNotFoundError (lit "masks/heart.png"))].
Proof.
  apply (missing_mask_file_is_reported Demo.world 7
           (Demo.with_mask None (lit "Heart") Demo.inputs)
           [lit "Roboto.ttf"; lit "README.md"]
           (sidebar_page
              ++ [ sidebar_header (128196%N :: lit " Input Source");
                   widget (lit "Choose:");
                   text_area (lit "Enter your text below:") (lit "cat cat dog") ])
           (lit "cat cat dog"));
    solve [reflexivity | discriminate].
Defined.

(** ** Sorting *)

Section SortedFacts.
Context {A : Type} (key : A -> Z).

Let asc (a b : A) : Prop := key a <= key b.
Let desc (a b : A) : Prop := key a >= key b.

Lemma insert_asc_perm x l : Permutation (x :: l) (Py.insert_asc key x l).
Proof.
  induction l as [|y l IH]; cbn; [reflexivity|].
  destruct (key x <=? key y); [reflexivity|].
  rewrite perm_swap. now constructor.
Qed.

Lemma sort_asc_perm l : Permutation l (Py.sort_asc key l).
Proof.
  induction l as [|x l IH]; cbn; [constructor|].
  rewrite <- insert_asc_perm. now constructor.
Qed.

Lemma insert_asc_sorted x l :
  StronglySorted asc l -> StronglySorted asc (Py.insert_asc key x l).
Proof.
  induction 1 as [|y l Hs IH Hy]; cbn; [repeat constructor|].
  destruct (key x <=? key y) eqn:E.
  - apply Z.leb_le in E. constructor; [now constructor|].
    constructor; [exact E|].
    eapply Forall_impl; [exact Hy|]. unfold asc. cbn. intros; lia.
  - apply Z.leb_gt in E. constructor; [exact IH|].
    rewrite <- (insert_asc_perm x l). constructor; [unfold asc; lia|exact Hy].
Qed.

Lemma sort_asc_sorted l : StronglySorted asc (Py.sort_asc key l).
Proof.
  induction l as [|x l IH]; cbn; [constructor|now apply insert_asc_sorted].
Qed.




Lemma strongly_sorted_snoc (R : A -> A -> Prop) l x :
  StronglySorted R l -> Forall (fun y => R y x) l -> StronglySorted R (l ++ [x]).
Proof.
  induction 1 as [|y l Hs IH Hy]; intros Hx; cbn; [repeat constructor|].
  apply Forall_cons_iff in Hx as [Hyx Hx]. constructor; [now apply IH|].
  apply Forall_app. split; [exact Hy|now constructor].
Qed.

Lemma strongly_sorted_rev (R : A -> A -> Prop) l :
  StronglySorted R l -> StronglySorted (fun a b => R b a) (rev l).
Proof.
  induction 1 as [|y l Hs IH Hy]; cbn; [constructor|].
  apply strongly_sorted_snoc; [exact IH|]. now apply Forall_rev.
Qed.

Lemma sorted_reverse_perm l : Permutation l (Py.sorted key true l).
Proof.
  unfold Py.sorted. rewrite <- Permutation_rev, <- sort_asc_perm.
  apply Permutation_rev.
Qed.

Lemma sorted_reverse_desc l : StronglySorted desc (Py.sorted key true l).
Proof.
  unfold Py.sorted.
  pose proof (strongly_sorted_rev asc _ (sort_asc_sorted (rev l))) as H.
  clear -H. induction H as [|y l' Hs IH Hy]; constructor; [exact IH|].
  eapply Forall_impl; [exact Hy|]. unfold asc, desc. cbn. intros; lia.
Qed.


End SortedFacts.

(** ** Relative order *)






(** ** The frequency table *)


Lemma freq_data_length nf rc : length (freq_data nf rc) = length nf.
Proof. unfold freq_data. apply List.length_map. Qed.



(** ** Rounding of binary64 arithmetic

    Facts about the operations of [SpecFloat]: the number of digits of a
    mantissa, the right shift with its round and sticky bits, and the
    rounding to nearest even of a value that does not exceed 100. *)

Lemma digits2_pos_bounds p :
  2 ^ (Zpos (digits2_pos p) - 1) <= Zpos p < 2 ^ Zpos (digits2_pos p).
Proof.
  induction p as [p IH|p IH|]; cbn [digits2_pos];
    rewrite ?Pos2Z.inj_succ, ?Z.pow_succ_r by lia.
  - replace (Z.succ (Zpos (digits2_pos p)) - 1) with (Z.succ (Zpos (digits2_pos p) - 1)) by lia.
    rewrite Z.pow_succ_r by lia. lia.
  - replace (Z.succ (Zpos (digits2_pos p)) - 1) with (Z.succ (Zpos (digits2_pos p) - 1)) by lia.
    rewrite Z.pow_succ_r by lia. lia.
  - cbn. lia.
Qed.

Lemma Zdigits2_nonneg m : 0 <= Zdigits2 m.
Proof. destruct m; cbn; lia. Qed.

Lemma Zdigits2_upper m : 0 <= m -> m < 2 ^ Zdigits2 m.
Proof.
  destruct m as [|p|p]; cbn [Zdigits2]; [cbn; lia| |lia].
  intros _. apply digits2_pos_bounds.
Qed.

Lemma Zdigits2_lower m : 0 < m -> 2 ^ (Zdigits2 m - 1) <= m.
Proof.
  destruct m as [|p|p]; cbn [Zdigits2]; [lia| |lia].
  intros _. apply digits2_pos_bounds.
Qed.

(** A bound on the value bounds the number of digits. *)
Lemma Zdigits2_le m k : 0 <= m -> 0 <= k -> m < 2 ^ k -> Zdigits2 m <= k.
Proof.
  intros Hm Hk Hlt. destruct (Z.eq_dec m 0) as [->|Hne]; [cbn; lia|].
  pose proof (Zdigits2_lower m ltac:(lia)) as Hl.
  destruct (Z_le_gt_dec (Zdigits2 m) k) as [|Hgt]; [assumption|exfalso].
  assert (2 ^ k <= 2 ^ (Zdigits2 m - 1)) by (apply Z.pow_le_mono_r; lia).
  lia.
Qed.

Lemma iter_pos_nat {A} (f : A -> A) p x :
  SpecFloat.iter_pos f p x = Nat.iter (Pos.to_nat p) f x.
Proof.
  revert x. induction p as [p IH|p IH|]; intros x; cbn [SpecFloat.iter_pos].
  - rewrite !IH, Pos2Nat.inj_xI.
    replace (S (2 * Pos.to_nat p)) with (Pos.to_nat p + (Pos.to_nat p + 1))%nat by lia.
    rewrite !Nat.iter_add. reflexivity.
  - rewrite !IH, Pos2Nat.inj_xO.
    replace (2 * Pos.to_nat p)%nat with (Pos.to_nat p + Pos.to_nat p)%nat by lia.
    rewrite Nat.iter_add. reflexivity.
  - reflexivity.
Qed.

Lemma shr_1_m mrs : 0 <= shr_m mrs -> shr_m (shr_1 mrs) = shr_m mrs / 2.
Proof.
  destruct mrs as [m r s]. cbn [shr_m shr_1]. intros Hm.
  destruct m as [|[p|p|]|p]; cbn [shr_m]; try lia; try reflexivity.
  - rewrite Pos2Z.inj_xI. apply Z.div_unique with 1; lia.
  - rewrite Pos2Z.inj_xO. apply Z.div_unique with 0; lia.
Qed.

Lemma shr_1_exact mrs :
  0 <= shr_m mrs -> shr_r mrs = false -> shr_s mrs = false -> shr_m mrs mod 2 = 0 ->
  shr_r (shr_1 mrs) = false /\ shr_s (shr_1 mrs) = false.
Proof.
  destruct mrs as [m r s]. cbn [shr_m shr_r shr_s shr_1]. intros Hm -> -> Hev.
  rewrite Zmod_even in Hev.
  destruct m as [|[p|p|]|p]; cbn in Hev |- *; try lia; try discriminate;
    split; reflexivity.
Qed.

Lemma iter_shr_1 k mrs :
  0 <= shr_m mrs ->
  shr_m (Nat.iter k shr_1 mrs) = shr_m mrs / 2 ^ Z.of_nat k
  /\ (shr_r mrs = false -> shr_s mrs = false -> shr_m mrs mod 2 ^ Z.of_nat k = 0 ->
      shr_r (Nat.iter k shr_1 mrs) = false /\ shr_s (Nat.iter k shr_1 mrs) = false).
Proof.
  intros Hm. induction k as [|k [IHm IHe]].
  - cbn. rewrite Z.div_1_r. auto.
  - rewrite Nat.iter_succ, Nat2Z.inj_succ, Z.pow_succ_r by lia.
    assert (Hpos : 0 < 2 ^ Z.of_nat k) by (apply Z.pow_pos_nonneg; lia).
    assert (Hq : 0 <= shr_m (Nat.iter k shr_1 mrs)).
    { rewrite IHm. apply Z.div_pos; lia. }
    split.
    + rewrite shr_1_m, IHm by assumption.
      rewrite Z.div_div by lia. f_equal. lia.
    + intros Hr Hs Hmod.
      assert (Hmodk : shr_m mrs mod 2 ^ Z.of_nat k = 0).
      { rewrite Z.mul_comm, Z.rem_mul_r in Hmod by lia.
        pose proof (Z.mod_pos_bound (shr_m mrs) (2 ^ Z.of_nat k) Hpos).
        pose proof (Z.mod_pos_bound (shr_m mrs / 2 ^ Z.of_nat k) 2 ltac:(lia)).
        nia. }
      destruct (IHe Hr Hs Hmodk) as [Hr' Hs'].
      apply shr_1_exact; try assumption.
      rewrite IHm. rewrite Z.mul_comm, Z.rem_mul_r in Hmod by lia.
      pose proof (Z.mod_pos_bound (shr_m mrs / 2 ^ Z.of_nat k) 2 ltac:(lia)).
      nia.
Qed.

Lemma shr_spec mrs e n :
  0 <= shr_m mrs ->
  exists mrs',
    shr mrs e n = (mrs', e + Z.max 0 n)
    /\ shr_m mrs' = shr_m mrs / 2 ^ Z.max 0 n
    /\ (shr_r mrs = false -> shr_s mrs = false -> shr_m mrs mod 2 ^ Z.max 0 n = 0 ->
        loc_of_shr_record mrs' = loc_Exact).
Proof.
  intros Hm. destruct n as [|p|p]; cbn [shr].
  - exists mrs. rewrite Z.add_0_r. cbn. rewrite Z.div_1_r.
    repeat split. intros Hr Hs _. destruct mrs as [m r s]. cbn in Hr, Hs. now subst.
  - rewrite iter_pos_nat. exists (Nat.iter (Pos.to_nat p) shr_1 mrs).
    replace (Z.max 0 (Z.pos p)) with (Z.of_nat (Pos.to_nat p)) by lia.
    destruct (iter_shr_1 (Pos.to_nat p) mrs Hm) as [H1 H2].
    repeat split; [f_equal; lia|exact H1|].
    intros Hr Hs Hmod. destruct (H2 Hr Hs Hmod) as [Hr' Hs'].
    destruct (Nat.iter (Pos.to_nat p) shr_1 mrs) as [m' r' s'].
    cbn in Hr', Hs'. now subst.
  - exists mrs. replace (Z.max 0 (Z.neg p)) with 0 by lia.
    rewrite Z.add_0_r. cbn. rewrite Z.div_1_r.
    repeat split. intros Hr Hs _. destruct mrs as [m r s]. cbn in Hr, Hs. now subst.
Qed.

Lemma shr_fexp_spec m e l :
  0 <= m ->
  exists mrs',
    shr_fexp PyFloat.prec PyFloat.emax m e l
    = (mrs', e + Z.max 0 (fexp PyFloat.prec PyFloat.emax (Zdigits2 m + e) - e))
    /\ shr_m mrs' = m / 2 ^ Z.max 0 (fexp PyFloat.prec PyFloat.emax (Zdigits2 m + e) - e)
    /\ (l = loc_Exact ->
        m mod 2 ^ Z.max 0 (fexp PyFloat.prec PyFloat.emax (Zdigits2 m + e) - e) = 0 ->
        loc_of_shr_record mrs' = loc_Exact).
Proof.
  intros Hm. unfold shr_fexp.
  destruct (shr_spec (shr_record_of_loc m l) e
              (fexp PyFloat.prec PyFloat.emax (Zdigits2 m + e) - e)) as (mrs' & H1 & H2 & H3).
  { destruct l as [|[]]; exact Hm. }
  exists mrs'. split; [exact H1|].
  assert (Hsm : shr_m (shr_record_of_loc m l) = m) by (destruct l as [|[]]; reflexivity).
  rewrite Hsm in H2, H3. split; [exact H2|].
  intros -> Hmod. apply H3; [reflexivity|reflexivity|exact Hmod].
Qed.

Lemma round_nearest_even_bounds t l :
  t <= round_nearest_even t l <= t + 1
  /\ (l = loc_Exact -> round_nearest_even t l = t).
Proof.
  destruct l as [|[]]; cbn; try destruct (Z.even t); split; (lia || auto || discriminate).
Qed.

Lemma fexp_eq x : fexp PyFloat.prec PyFloat.emax x = Z.max (x - 53) (-1074).
Proof. reflexivity. Qed.

Lemma cap_split e n : 0 <= n -> e + n <= 0 -> cap e = cap (e + n) * 2 ^ n.
Proof.
  intros Hn He. unfold cap. rewrite <- Z.mul_assoc, <- Z.pow_add_r by lia.
  do 2 f_equal. lia.
Qed.

Lemma cap_digits m e : 0 <= m -> e <= 0 -> m <= cap e -> Zdigits2 m + e <= 7.
Proof.
  intros Hm He Hle.
  assert (Zdigits2 m <= 7 - e); [|lia].
  apply Zdigits2_le; [lia|lia|].
  replace (7 - e) with (7 + - e) by lia. rewrite Z.pow_add_r by lia.
  unfold cap in Hle. assert (0 < 2 ^ (- e)) by (apply Z.pow_pos_nonneg; lia).
  change (2 ^ 7) with 128. lia.
Qed.

Lemma round_aux_le m e l :
  0 <= m -> e <= -46 ->
  m < cap e \/ (l = loc_Exact /\ m = cap e) ->
  le_hundred (binary_round_aux PyFloat.prec PyFloat.emax false m e l).
Proof.
  intros Hm He Hcap. unfold binary_round_aux.
  destruct (shr_fexp_spec m e l Hm) as (mrs1 & -> & Hm1 & Hx1).
  set (n1 := Z.max 0 (fexp PyFloat.prec PyFloat.emax (Zdigits2 m + e) - e)) in *.
  assert (Hd : Zdigits2 m + e <= 7) by (apply cap_digits; lia).
  assert (Hn1 : 0 <= n1 /\ e + n1 <= -46) by (unfold n1; rewrite fexp_eq; lia).
  assert (Hp1 : 0 < 2 ^ n1) by (apply Z.pow_pos_nonneg; lia).
  pose proof (cap_split e n1 ltac:(lia) ltac:(lia)) as Hsplit.
  destruct (round_nearest_even_bounds (shr_m mrs1) (loc_of_shr_record mrs1)) as [Hb Hex].
  set (t' := round_nearest_even (shr_m mrs1) (loc_of_shr_record mrs1)) in *.
  assert (Ht : 0 <= shr_m mrs1) by (rewrite Hm1; apply Z.div_pos; lia).
  assert (Ht' : 0 <= t' <= cap (e + n1)).
  { split; [lia|]. destruct Hcap as [Hlt|[-> Heq]].
    - assert (shr_m mrs1 < cap (e + n1)); [|lia].
      rewrite Hm1. apply Z.div_lt_upper_bound; lia.
    - assert (Hmod : m mod 2 ^ n1 = 0).
      { rewrite Heq, Hsplit. apply Z.mod_mul. lia. }
      rewrite (Hex (Hx1 eq_refl Hmod)), Hm1, Heq, Hsplit, Z.div_mul by lia. lia. }
  destruct (shr_fexp_spec t' (e + n1) loc_Exact ltac:(lia)) as (mrs2 & -> & Hm2 & _).
  set (n2 := Z.max 0 (fexp PyFloat.prec PyFloat.emax (Zdigits2 t' + (e + n1)) - (e + n1))) in *.
  assert (Hd' : Zdigits2 t' + (e + n1) <= 7) by (apply cap_digits; lia).
  assert (Hn2 : 0 <= n2 /\ e + n1 + n2 <= -46) by (unfold n2; rewrite fexp_eq; lia).
  assert (Hp2 : 0 < 2 ^ n2) by (apply Z.pow_pos_nonneg; lia).
  pose proof (cap_split (e + n1) n2 ltac:(lia) ltac:(lia)) as Hsplit2.
  assert (Hm2' : 0 <= shr_m mrs2 <= cap (e + n1 + n2)).
  { rewrite Hm2. split; [apply Z.div_pos; lia|].
    apply Z.div_le_upper_bound; lia. }
  destruct (shr_m mrs2) as [|p|p]; [exact I| |lia].
  replace (e + n1 + n2 <=? PyFloat.emax - PyFloat.prec) with true.
  - cbn. split; lia.
  - symmetry. apply Z.leb_le. unfold PyFloat.emax, PyFloat.prec. lia.
Qed.

Lemma le_hundred_leb x : le_hundred x -> PyFloat.leb x PyFloat.hundred = true.
Proof.
  change PyFloat.hundred with (S754_finite false 7036874417766400 (-46)).
  unfold PyFloat.leb, SFleb, SFcompare, le_hundred.
  destruct x as [s|s| |[] m e]; try tauto.
  intros [He Hm].
  destruct (Z.compare_spec e (-46)) as [->|Hlt|Hgt]; [|reflexivity|lia].
  change (cap (-46)) with 7036874417766400 in Hm.
  rewrite Pos.compare_cont_spec. cbn [Pos.switch_Eq].
  destruct (Pos.compare_spec m 7036874417766400); try reflexivity. lia.
Qed.

Lemma le_hundred_nonneg x : le_hundred x -> PyFloat.leb PyFloat.zero x = true.
Proof. destruct x as [s|s| |[] m e]; cbn; tauto. Qed.

Lemma of_decimal_cents_le_hundred n :
  0 < n <= 10000 -> le_hundred (PyFloat.of_decimal false n (-2)).
Proof.
  intros Hn. destruct n as [|p|p]; try lia.
  unfold PyFloat.of_decimal, SFdiv_core_binary.
  change (10 ^ Z.pos 2) with 100. change (Zdigits2 100) with 7.
  assert (Hd : 1 <= Zdigits2 (Z.pos p) <= 14).
  { split.
    - pose proof (Zdigits2_upper (Z.pos p) ltac:(lia)) as Hu.
      destruct (Z_le_gt_dec 1 (Zdigits2 (Z.pos p))); [assumption|].
      pose proof (Zdigits2_nonneg (Z.pos p)).
      replace (Zdigits2 (Z.pos p)) with 0 in Hu by lia. cbn in Hu. lia.
    - apply Zdigits2_le; [lia|lia|]. change (2 ^ 14) with 16384. lia. }
  set (d1 := Zdigits2 (Z.pos p)) in *.
  replace (Z.min (fexp PyFloat.prec PyFloat.emax (d1 + 0 - (7 + 0))) (0 - 0))
    with (d1 - 60) by (rewrite fexp_eq; lia).
  replace (0 - 0 - (d1 - 60)) with (60 - d1) by lia.
  destruct (60 - d1) as [|s|s] eqn:Es; try lia.
  rewrite Z.shiftl_mul_pow2 by lia.
  assert (Hp : 0 < 2 ^ Z.pos s) by (apply Z.pow_pos_nonneg; lia).
  pose proof (Z_div_mod (Z.pos p * 2 ^ Z.pos s) 100 ltac:(lia)) as Hdm.
  destruct (Z.div_eucl (Z.pos p * 2 ^ Z.pos s) 100) as [q r].
  destruct Hdm as [Hq Hr].
  assert (Hcap : cap (d1 - 60) = 100 * 2 ^ Z.pos s).
  { unfold cap. do 2 f_equal. lia. }
  apply round_aux_le; [nia|lia|].
  rewrite Hcap. unfold new_location. change (Z.even 100) with true. cbv iota.
  unfold new_location_even.
  destruct (Z.eq_dec q (100 * 2 ^ Z.pos s)) as [Heq|Hne].
  - right. split; [|exact Heq].
    replace r with 0 by nia. reflexivity.
  - left. nia.
Qed.

Lemma round_half_even_cents m den :
  0 < den -> 0 <= m <= 100 * den ->
  0 <= PyFloat.round_half_even (m * 100) den <= 10000.
Proof.
  intros Hden Hm. unfold PyFloat.round_half_even.
  pose proof (Z.div_mod (m * 100) den ltac:(lia)) as Hdm.
  pose proof (Z.mod_pos_bound (m * 100) den Hden) as Hr.
  assert (Hq : 0 <= m * 100 / den) by (apply Z.div_pos; lia).
  assert (Hq' : m * 100 / den <= 10000).
  { apply Z.div_le_upper_bound; lia. }
  destruct (Z.compare_spec (2 * ((m * 100) mod den)) den) as [He|Hl|Hg];
    [destruct (Z.even _)| |]; nia.
Qed.

(** [round(x, 2)] of a double in [0, 100] is a zero or the double
    nearest to [n / 100] for an integer [n] from 1 to 10000. *)
Lemma round_cents x :
  le_hundred x ->
  (exists s, PyFloat.round x 2 = S754_zero s)
  \/ (exists n, 0 < n <= 10000 /\ PyFloat.round x 2 = PyFloat.of_decimal false n (-2)).
Proof.
  destruct x as [s|s| |[] m e]; cbn [le_hundred]; try tauto.
  - intros _. left. now exists s.
  - intros [He Hm]. destruct e as [|e|e]; try lia.
    unfold PyFloat.round. change (10 ^ Z.of_N 2) with 100. change (- Z.of_N 2) with (-2).
    assert (Hden : 0 < 2 ^ (- Z.neg e)) by (apply Z.pow_pos_nonneg; lia).
    pose proof (round_half_even_cents (Z.pos m) (2 ^ (- Z.neg e)) Hden
                  ltac:(unfold cap in Hm; lia)) as Hn.
    destruct (Z.eq_dec (PyFloat.round_half_even (Z.pos m * 100) (2 ^ (- Z.neg e))) 0)
      as [->|Hne].
    + left. now exists false.
    + right. eexists. split; [|reflexivity]. lia.
Qed.

Lemma round_le_hundred x : le_hundred x -> le_hundred (PyFloat.round x 2).
Proof.
  intros H. destruct (round_cents x H) as [[s ->]|(n & Hn & ->)]; [exact I|].
  now apply of_decimal_cents_le_hundred.
Qed.

Lemma mul_hundred_le_hundred w :
  PyFloat.valid w = true ->
  PyFloat.leb PyFloat.zero w = true ->
  PyFloat.leb w PyFloat.one = true ->
  le_hundred (PyFloat.mul w (PyFloat.of_int 100)).
Proof.
  change (PyFloat.of_int 100) with (S754_finite false 7036874417766400 (-46)).
  change PyFloat.one with (S754_finite false 4503599627370496 (-52)).
  unfold PyFloat.valid, PyFloat.leb, PyFloat.zero, PyFloat.mul, SFleb, SFcompare, SFmul.
  destruct w as [s|[]| |[] m e]; cbn [valid_binary le_hundred xorb]; try discriminate;
    [intros; exact I|].
  intros Hv _ Hle. unfold bounded, canonical_mantissa in Hv.
  apply andb_true_iff in Hv as [Hc _]. apply Z.eqb_eq in Hc. rewrite fexp_eq in Hc.
  pose proof (digits2_pos_bounds m) as [_ Hu].
  assert (Hm : e <= -52 /\ Z.pos m <= 2 ^ (- e)).
  { destruct (Z.compare_spec e (-52)) as [->|Hlt|Hgt]; [| |discriminate].
    - split; [lia|]. rewrite Pos.compare_cont_spec in Hle. cbn [Pos.switch_Eq] in Hle.
      change (2 ^ (- -52)) with (Z.pos 4503599627370496).
      destruct (Pos.compare_spec m 4503599627370496) as [Heq|Hlt|Hgt];
        [rewrite Heq; apply Z.le_refl|apply Z.lt_le_incl; exact Hlt|discriminate].
    - split; [lia|].
      assert (2 ^ Z.pos (digits2_pos m) <= 2 ^ (- e)) by (apply Z.pow_le_mono_r; lia).
      lia. }
  destruct Hm as [He Hm].
  assert (Hcap : cap (e + -46) = 7036874417766400 * 2 ^ (- e)).
  { unfold cap. replace (- (e + -46)) with (46 + - e) by lia.
    rewrite Z.pow_add_r by lia. change (2 ^ 46) with 70368744177664. lia. }
  apply round_aux_le; [lia|lia|]. rewrite Hcap, Pos2Z.inj_mul.
  destruct (Z.eq_dec (Z.pos m) (2 ^ (- e))) as [Heq|Hne].
  - right. split; [reflexivity|]. rewrite Heq. apply Z.mul_comm.
  - left. rewrite (Z.mul_comm (Z.pos m)). apply Z.mul_lt_mono_pos_l; lia.
Qed.

(** ** The values in the rows of the table *)

Lemma in_take_in {A} n (l : list A) x : In x (take n l) -> In x l.
Proof.
  intros H. rewrite <- (take_drop n l). apply in_or_app. now left.
Qed.

Lemma top10_in data row : In row (top10 data) -> In row data.
Proof.
  unfold top10. intros H. apply in_take_in in H.
  eapply Permutation_in; [|exact H]. symmetry. apply sorted_reverse_perm.
Qed.

Lemma freq_data_in nf rc row :
  In row (freq_data nf rc) ->
  exists word freq,
    In (word, freq) nf
    /\ row = {| Word := word;
                Raw_Count := default 0 (rc !! word);
                Normalized_Frequency :=
                  PyFloat.round (PyFloat.mul freq (PyFloat.of_int 100)) 2 |}.
Proof.
  unfold freq_data. intros H. apply in_map_iff in H as ([word freq] & E & Hin).
  now exists word, freq.
Qed.

(** The percentage of a weight between 0 and 1. *)
Lemma percentage_range freq :
  PyFloat.valid freq = true ->
  PyFloat.leb PyFloat.zero freq = true ->
  PyFloat.leb freq PyFloat.one = true ->
  le_hundred (PyFloat.round (PyFloat.mul freq (PyFloat.of_int 100)) 2).
Proof. intros Hv H0 H1. now apply round_le_hundred, mul_hundred_le_hundred. Qed.

(** C4. Every row of the table belongs to a word of the renderer's
    mapping; its raw count is the count of that word in the re-tokenized
    text, and 0 when the word has no count there; its normalized
    frequency is the weight of the word times 100, rounded to two
    decimals by [round].  When the weight is a double between 0 and 1
    the normalized frequency lies between 0 and 100 and is a zero or the
    double nearest to [n / 100] for a whole number [n] from 1 to 10000. *)
Theorem table_row_values
    (normalized_freqs : list (str * float)) (raw_counts : gmap str Z) (row : Row) :
  In row (top10 (freq_data normalized_freqs raw_counts)) ->
  exists word freq,
    In (word, freq) normalized_freqs
    /\ Word row = word
    /\ Raw_Count row = default 0 (raw_counts !! word)
    /\ (raw_counts !! word = None -> Raw_Count row = 0)
    /\ Normalized_Frequency row
       = PyFloat.round (PyFloat.mul freq (PyFloat.of_int 100)) 2
    /\ (PyFloat.valid freq = true ->
        PyFloat.leb PyFloat.zero freq = true ->
        PyFloat.leb freq PyFloat.one = true ->
        PyFloat.leb PyFloat.zero (Normalized_Frequency row) = true
        /\ PyFloat.leb (Normalized_Frequency row) PyFloat.hundred = true
        /\ ((exists s, Normalized_Frequency row = S754_zero s)
            \/ (exists n, 0 < n <= 10000
                          /\ Normalized_Frequency row = PyFloat.of_decimal false n (-2)))).
Proof.
  intros Hin. apply top10_in, freq_data_in in Hin as (word & freq & Hin & ->).
  exists word, freq. cbn [Word Raw_Count Normalized_Frequency].
  split; [exact Hin|]. do 2 (split; [reflexivity|]).
  split; [now intros ->|]. split; [reflexivity|].
  intros Hv H0 H1.
  pose proof (mul_hundred_le_hundred freq Hv H0 H1) as Hmul.
  split; [now apply le_hundred_nonneg, round_le_hundred|].
  split; [now apply le_hundred_leb, round_le_hundred|].
  now apply round_cents.
Qed.

Lemma table_row_values_witness :
  exists word freq,
    In (word, freq) (words_ Demo.cloud)
    /\ word = Demo.dog
    /\ default 0 (process_text Demo.world (lit "cat cat dog") !! word) = 1
    /\ PyFloat.round (PyFloat.mul freq (PyFloat.of_int 100)) 2
       = PyFloat.of_decimal false 5000 (-2)
    /\ PyFloat.leb (PyFloat.of_decimal false 5000 (-2)) PyFloat.hundred = true.
Proof.
  destruct (table_row_values (words_ Demo.cloud)
              (process_text Demo.world (lit "cat cat dog"))
              {| Word := Demo.dog; Raw_Count := 1;
                 Normalized_Frequency := PyFloat.of_decimal false 5000 (-2) |})
    as (word & freq & Hin & Hw & Hc & _ & Hn & Hrange).
  { right. left. vm_compute. reflexivity. }
  exists word, freq. cbn [Word Raw_Count Normalized_Frequency] in Hw, Hc, Hn, Hrange.
  split; [exact Hin|]. split; [now symmetry|]. split; [now symmetry|].
  split; [now symmetry|].
  destruct Hin as [E|[E|[]]]; injection E as <- <-.
  - discriminate Hw.
  - destruct (Hrange eq_refl eq_refl eq_refl) as (_ & Hle & _). exact Hle.
Defined.

(** ** Reading written records *)

Lemma special_cases c :
  pd.special c = false ->
  (c =? pd.delimiter)%N = false /\ (c =? 10)%N = false /\ (c =? pd.quotechar)%N = false.
Proof.
  unfold pd.special, pd.lineterminator. intros H.
  apply orb_false_iff in H as [H H3]. apply orb_false_iff in H as [H1 H2].
  repeat split; try assumption.
  apply bool_decide_eq_false in H3. apply N.eqb_neq. intros ->. apply H3. now left.
Qed.

Lemma records_unquoted_run f : forall acc row s,
  existsb pd.special f = false ->
  Reader.records Reader.Unquoted acc row (f ++ s)
  = Reader.records Reader.Unquoted (acc ++ f) row s.
Proof.
  induction f as [|c f IH]; intros acc row s H; cbn [List.app].
  - now rewrite app_nil_r.
  - cbn [existsb] in H. apply orb_false_iff in H as [Hc Hf].
    destruct (special_cases c Hc) as (H1 & H2 & H3).
    cbn [Reader.records]. rewrite H1, H2, H3, IH by assumption.
    now rewrite <- app_assoc.
Qed.

Lemma records_unquoted_field f row s :
  existsb pd.special f = false -> f <> [] ->
  Reader.records Reader.FieldStart [] row (f ++ s)
  = Reader.records Reader.Unquoted f row s.
Proof.
  destruct f as [|c f]; [congruence|]. intros H _.
  cbn [existsb] in H. apply orb_false_iff in H as [Hc Hf].
  destruct (special_cases c Hc) as (H1 & H2 & H3).
  cbn [List.app Reader.records]. rewrite H1, H2, H3.
  now rewrite records_unquoted_run.
Qed.

Lemma records_quoted_run f : forall acc row s,
  Reader.records Reader.Quoted acc row (concat (List.map pd.escape f) ++ pd.quotechar :: s)
  = Reader.records Reader.QuoteSeen (acc ++ f) row s.
Proof.
  induction f as [|c f IH]; intros acc row s; cbn [List.map concat List.app].
  - cbn [Reader.records]. rewrite N.eqb_refl. now rewrite app_nil_r.
  - unfold pd.escape at 1. destruct (c =? pd.quotechar)%N eqn:E.
    + apply N.eqb_eq in E. subst c. cbn [List.app Reader.records].
      rewrite N.eqb_refl. cbn [Reader.records].
      change (pd.quotechar =? pd.delimiter)%N with false.
      change (pd.quotechar =? 10)%N with false.
      cbv iota. rewrite IH. now rewrite <- app_assoc.
    + cbn [List.app Reader.records]. rewrite E, IH. now rewrite <- app_assoc.
Qed.

(** Reading a written field up to the delimiter that follows it. *)
Lemma records_field_delimiter f row s :
  Reader.records Reader.FieldStart [] row (pd.quote_minimal f ++ pd.delimiter :: s)
  = Reader.records Reader.FieldStart [] (row ++ [f]) s.
Proof.
  unfold pd.quote_minimal. destruct (existsb pd.special f) eqn:E.
  - cbn [List.app Reader.records].
    change (pd.quotechar =? pd.delimiter)%N with false.
    change (pd.quotechar =? 10)%N with false.
    rewrite N.eqb_refl. cbv iota.
    rewrite <- app_assoc. cbn [List.app]. rewrite records_quoted_run.
    cbn [Reader.records List.app]. now rewrite N.eqb_refl.
  - destruct f as [|c f].
    + cbn [List.app Reader.records]. now rewrite N.eqb_refl.
    + rewrite records_unquoted_field by (assumption || discriminate).
      cbn [Reader.records]. now rewrite N.eqb_refl.
Qed.

(** Reading the last field of a record and the line feed after it. *)
Lemma records_field_newline f row s :
  row <> [] ->
  Reader.records Reader.FieldStart [] row (pd.quote_minimal f ++ 10%N :: s)
  = cons (row ++ [f]) <$> Reader.records Reader.FieldStart [] [] s.
Proof.
  intros Hrow. unfold pd.quote_minimal. destruct (existsb pd.special f) eqn:E.
  - cbn [List.app Reader.records].
    change (pd.quotechar =? pd.delimiter)%N with false.
    change (pd.quotechar =? 10)%N with false.
    rewrite N.eqb_refl. cbv iota.
    rewrite <- app_assoc. cbn [List.app]. rewrite records_quoted_run.
    cbn [Reader.records List.app Reader.end_field].
    change (10 =? pd.delimiter)%N with false. now rewrite N.eqb_refl.
  - destruct f as [|c f].
    + cbn [List.app Reader.records]. change (10 =? pd.delimiter)%N with false.
      rewrite N.eqb_refl. cbn [Reader.end_field]. destruct row; [congruence|reflexivity].
    + rewrite records_unquoted_field by (assumption || discriminate).
      cbn [Reader.records]. change (10 =? pd.delimiter)%N with false.
      now rewrite N.eqb_refl.
Qed.

(** A written record of three fields is read back as written. *)
Lemma records_writerow3 a b c s :
  Reader.records Reader.FieldStart [] [] (pd.writerow [a; b; c] ++ s)
  = cons [a; b; c] <$> Reader.records Reader.FieldStart [] [] s.
Proof.
  unfold pd.writerow, pd.lineterminator. cbn [List.map Py.join].
  rewrite <- !app_assoc. cbn [List.app].
  rewrite !records_field_delimiter. cbn [List.app].
  now rewrite records_field_newline.
Qed.

Lemma records_rows (rows : list (str * str * str)) :
  Reader.records Reader.FieldStart [] []
    (concat (List.map (fun '(a, b, c) => pd.writerow [a; b; c]) rows))
  = Some (List.map (fun '(a, b, c) => [a; b; c]) rows).
Proof.
  induction rows as [|[[a b] c] rows IH]; [reflexivity|].
  cbn [List.map concat]. now rewrite records_writerow3, IH.
Qed.

(** ** Decimal numerals *)

Lemma number_acc d : forall p : positive,
  Reader.number (Z.pos p) (PyRepr.digits_of_uint d) = Some (Z.pos (Pos.of_uint_acc d p)).
Proof.
  induction d; intros p; cbn [PyRepr.digits_of_uint Reader.number Pos.of_uint_acc];
    try reflexivity;
    cbn [Reader.digit N.leb N.compare Pos.compare Pos.compare_cont andb mbind option_bind
         Z.of_N Z.sub Z.add Z.opp Z.pos_sub Z.succ_double Z.pred_double Z.double Pos.pred_double];
    try (rewrite <- IHd; f_equal; lia).
Qed.

Lemma number_zero d :
  Reader.number 0 (PyRepr.digits_of_uint d) = Some (Z.of_uint d).
Proof.
  unfold Z.of_uint.
  induction d; cbn [PyRepr.digits_of_uint Reader.number Pos.of_uint];
    try reflexivity; try exact IHd;
    cbn [Reader.digit N.leb N.compare Pos.compare Pos.compare_cont andb mbind option_bind
         Z.of_N Z.sub Z.add Z.opp Z.pos_sub Z.succ_double Z.pred_double Z.double Pos.pred_double
         Z.mul];
    apply number_acc.
Qed.

Lemma digits_nonnil d : d <> Decimal.Nil -> PyRepr.digits_of_uint d <> [].
Proof. destruct d; cbn; congruence. Qed.

Lemma unsigned_digits d :
  d <> Decimal.Nil -> Reader.unsigned (PyRepr.digits_of_uint d) = Some (Z.of_uint d).
Proof.
  intros H. unfold Reader.unsigned. rewrite number_zero.
  destruct (PyRepr.digits_of_uint d) eqn:E; [|reflexivity].
  now apply digits_nonnil in E.
Qed.

Lemma digits_not_minus d : forall s, PyRepr.digits_of_uint d <> 45%N :: s.
Proof. destruct d; cbn; intros s; congruence. Qed.

Lemma to_int_nonnil z :
  match Z.to_int z with Decimal.Pos d | Decimal.Neg d => d <> Decimal.Nil end.
Proof.
  destruct z; cbn; try discriminate; apply Unsigned.to_uint_nonnil.
Qed.

Lemma int_of_str_unsigned c s :
  c <> 45%N -> Reader.int_of_str (c :: s) = Reader.unsigned (c :: s).
Proof.
  intros H. unfold Reader.int_of_str.
  destruct c as [|p]; [reflexivity|].
  do 6 (try (destruct p as [p|p|]; try reflexivity)). congruence.
Qed.

(** [int(str(z)) = z] *)
Lemma int_of_str_of_int z : Reader.int_of_str (PyRepr.str_of_int z) = Some z.
Proof.
  unfold PyRepr.str_of_int. pose proof (to_int_nonnil z) as Hn.
  pose proof (DecimalZ.of_to z) as Hz.
  destruct (Z.to_int z) as [d|d]; cbn [Z.of_int] in Hz.
  - destruct (PyRepr.digits_of_uint d) as [|c s] eqn:E; [now apply digits_nonnil in E|].
    assert (c <> 45%N) by (intros ->; now apply digits_not_minus in E).
    rewrite int_of_str_unsigned by assumption.
    rewrite <- E, unsigned_digits, Hz by assumption. reflexivity.
  - cbn [Reader.int_of_str fmap]. rewrite unsigned_digits by assumption.
    cbn. now rewrite Hz.
Qed.

(** ** UTF-8 *)

Ltac ndiv := zify; Z.to_euclidean_division_equations; lia.

Lemma to_N_byte_of n : (n < 256)%N -> Byte.to_N (PyRepr.byte_of n) = n.
Proof.
  intros H. unfold PyRepr.byte_of. destruct (Byte.of_N n) as [b|] eqn:E.
  - now apply Byte.to_of_N.
  - apply Byte.of_N_None_iff in E. lia.
Qed.

Lemma utf8_decode_1 b0 r :
  (b0 < 128)%N -> Reader.utf8_decode (b0 :: r) = cons b0 <$> Reader.utf8_decode r.
Proof. intros H. apply N.ltb_lt in H. cbn [Reader.utf8_decode]. now rewrite H. Qed.

Lemma utf8_decode_2 b0 b1 r :
  (128 <= b0 < 224)%N ->
  Reader.utf8_decode (b0 :: b1 :: r)
  = cons ((b0 - 192) * 64 + (b1 - 128))%N <$> Reader.utf8_decode r.
Proof.
  intros [H1 H2]. apply N.ltb_ge in H1. apply N.ltb_lt in H2.
  change (Reader.utf8_decode (b0 :: b1 :: r))
    with (if (b0 <? 128)%N then cons b0 <$> Reader.utf8_decode (b1 :: r)
          else if (b0 <? 224)%N
               then cons ((b0 - 192) * 64 + (b1 - 128))%N <$> Reader.utf8_decode r
               else if (b0 <? 240)%N
                    then match r with
                         | b2 :: r =>
                             cons ((b0 - 224) * 4096 + (b1 - 128) * 64 + (b2 - 128))%N
                               <$> Reader.utf8_decode r
                         | _ => None
                         end
                    else match r with
                         | b2 :: b3 :: r =>
                             cons ((b0 - 240) * 262144 + (b1 - 128) * 4096
                                   + (b2 - 128) * 64 + (b3 - 128))%N
                               <$> Reader.utf8_decode r
                         | _ => None
                         end).
  now rewrite H1, H2.
Qed.

Lemma utf8_decode_3 b0 b1 b2 r :
  (224 <= b0 < 240)%N ->
  Reader.utf8_decode (b0 :: b1 :: b2 :: r)
  = cons ((b0 - 224) * 4096 + (b1 - 128) * 64 + (b2 - 128))%N <$> Reader.utf8_decode r.
Proof.
  intros [H1 H2].
  assert (A : (b0 <? 128)%N = false) by (apply N.ltb_ge; lia).
  assert (B : (b0 <? 224)%N = false) by (apply N.ltb_ge; lia).
  apply N.ltb_lt in H2.
  change (Reader.utf8_decode (b0 :: b1 :: b2 :: r))
    with (if (b0 <? 128)%N then cons b0 <$> Reader.utf8_decode (b1 :: b2 :: r)
          else if (b0 <? 224)%N
               then cons ((b0 - 192) * 64 + (b1 - 128))%N <$> Reader.utf8_decode (b2 :: r)
               else if (b0 <? 240)%N
                    then cons ((b0 - 224) * 4096 + (b1 - 128) * 64 + (b2 - 128))%N
                           <$> Reader.utf8_decode r
                    else match r with
                         | b3 :: r =>
                             cons ((b0 - 240) * 262144 + (b1 - 128) * 4096
                                   + (b2 - 128) * 64 + (b3 - 128))%N
                               <$> Reader.utf8_decode r
                         | _ => None
                         end).
  now rewrite A, B, H2.
Qed.

Lemma utf8_decode_4 b0 b1 b2 b3 r :
  (240 <= b0)%N ->
  Reader.utf8_decode (b0 :: b1 :: b2 :: b3 :: r)
  = cons ((b0 - 240) * 262144 + (b1 - 128) * 4096 + (b2 - 128) * 64 + (b3 - 128))%N
      <$> Reader.utf8_decode r.
Proof.
  intros H1.
  assert (A : (b0 <? 128)%N = false) by (apply N.ltb_ge; lia).
  assert (B : (b0 <? 224)%N = false) by (apply N.ltb_ge; lia).
  assert (C : (b0 <? 240)%N = false) by (apply N.ltb_ge; lia).
  change (Reader.utf8_decode (b0 :: b1 :: b2 :: b3 :: r))
    with (if (b0 <? 128)%N then cons b0 <$> Reader.utf8_decode (b1 :: b2 :: b3 :: r)
          else if (b0 <? 224)%N
               then cons ((b0 - 192) * 64 + (b1 - 128))%N
                      <$> Reader.utf8_decode (b2 :: b3 :: r)
               else if (b0 <? 240)%N
                    then cons ((b0 - 224) * 4096 + (b1 - 128) * 64 + (b2 - 128))%N
                           <$> Reader.utf8_decode (b3 :: r)
                    else cons ((b0 - 240) * 262144 + (b1 - 128) * 4096
                               + (b2 - 128) * 64 + (b3 - 128))%N
                           <$> Reader.utf8_decode r).
  now rewrite A, B, C.
Qed.

Lemma utf8_char_round c rest :
  scalar c = true ->
  exists bs, PyRepr.utf8_char c = Some bs
             /\ Reader.utf8_decode (List.map Byte.to_N bs ++ rest)
                = cons c <$> Reader.utf8_decode rest.
Proof.
  unfold scalar, PyRepr.utf8_char. intros Hs.
  assert (Hsc : (c < 55296 \/ 57343 < c < 1114112)%N).
  { apply orb_true_iff in Hs as [H|H]; [left; now apply N.ltb_lt|right].
    apply andb_true_iff in H as [H1 H2]. split; now apply N.ltb_lt. }
  clear Hs.
  destruct (c <? 128)%N eqn:C1.
  { apply N.ltb_lt in C1. eexists. split; [reflexivity|].
    cbn [List.map List.app]. rewrite to_N_byte_of by lia. now apply utf8_decode_1. }
  apply N.ltb_ge in C1.
  destruct (c <? 2048)%N eqn:C2.
  { apply N.ltb_lt in C2. eexists. split; [reflexivity|].
    cbn [List.map List.app]. rewrite !to_N_byte_of by ndiv.
    rewrite utf8_decode_2 by ndiv. do 2 f_equal. ndiv. }
  apply N.ltb_ge in C2.
  destruct ((55296 <=? c) && (c <=? 57343))%N eqn:C3.
  { apply andb_true_iff in C3 as [A B]. apply N.leb_le in A, B. lia. }
  destruct (c <? 65536)%N eqn:C4.
  { apply N.ltb_lt in C4. eexists. split; [reflexivity|].
    cbn [List.map List.app]. rewrite !to_N_byte_of by ndiv.
    rewrite utf8_decode_3 by ndiv. do 2 f_equal. ndiv. }
  apply N.ltb_ge in C4.
  destruct (c <? 1114112)%N eqn:C5.
  { apply N.ltb_lt in C5. eexists. split; [reflexivity|].
    cbn [List.map List.app]. rewrite !to_N_byte_of by ndiv.
    rewrite utf8_decode_4 by ndiv. do 2 f_equal. ndiv. }
  apply N.ltb_ge in C5. lia.
Qed.

Lemma utf8_round s :
  forallb scalar s = true ->
  exists b, PyRepr.utf8 s = Some b /\ Reader.decode b = Some s.
Proof.
  unfold Reader.decode. induction s as [|c s IH]; intros H.
  - now exists [].
  - cbn [forallb] in H. apply andb_true_iff in H as [Hc Hs].
    destruct (IH Hs) as (b & Hb & Hd).
    destruct (utf8_char_round c (List.map Byte.to_N b) Hc) as (bs & Hbs & Hdec).
    exists (bs ++ b). cbn [PyRepr.utf8]. rewrite Hbs, Hb. split; [reflexivity|].
    now rewrite List.map_app, Hdec, Hd.
Qed.

(** ** The text of the percentages

    Checked by computation for every number of hundredths from 0.01 to
    100.00. *)

Lemma cents_text_ok_all :
  forallb (fun k => float_text_ok (PyFloat.of_decimal false (Z.of_nat k) (-2)))
          (seq 1 (Z.to_nat 10000)) = true.
Proof. vm_cast_no_check (eq_refl true). Qed.

(** ** The export of a table *)

Lemma to_csv_table table :
  table <> [] ->
  Forall (fun r => Normalized_Frequency r <> S754_nan) table ->
  pd.to_csv (pd.DataFrame (List.map Row_items table))
  = pd.writerow header ++ concat (List.map csv_line table).
Proof.
  intros Hne Hnan. unfold pd.to_csv, pd.DataFrame. cbn [pd.columns pd.values].
  f_equal.
  - destruct table; [congruence|reflexivity].
  - f_equal. rewrite !List.map_map. clear Hne.
    induction Hnan as [|r table Hr _ IH]; [reflexivity|].
    cbn [List.map]. rewrite IH. f_equal. unfold csv_line, row_fields. f_equal.
    cbn [Row_items List.map snd pd.cell_text]. do 2 f_equal.
    destruct (Normalized_Frequency r); congruence.
Qed.

Lemma records_table table :
  Reader.records Reader.FieldStart [] [] (concat (List.map csv_line table))
  = Some (List.map row_fields table).
Proof.
  induction table as [|r table IH]; [reflexivity|].
  cbn [List.map concat]. unfold csv_line at 1, row_fields at 1.
  now rewrite records_writerow3, IH.
Qed.

Lemma records_csv table :
  Reader.records Reader.FieldStart [] []
    (pd.writerow header ++ concat (List.map csv_line table))
  = Some (header :: List.map row_fields table).
Proof. unfold header. now rewrite records_writerow3, records_table. Qed.

Lemma float_text_ok_read x :
  float_text_ok x = true -> Reader.float_of_str (PyRepr.repr x) = Some x.
Proof.
  unfold float_text_ok. intros H. apply andb_true_iff in H as [H _].
  now apply bool_decide_eq_true in H.
Qed.

Lemma float_text_ok_scalar x :
  float_text_ok x = true -> forallb scalar (PyRepr.repr x) = true.
Proof. unfold float_text_ok. intros H. now apply andb_true_iff in H as [_ H]. Qed.

Lemma row_of_record_fields r :
  float_text_ok (Normalized_Frequency r) = true ->
  Reader.row_of_record (row_fields r) = Some r.
Proof.
  intros H. unfold Reader.row_of_record, row_fields.
  rewrite int_of_str_of_int. cbn [mbind option_bind].
  rewrite float_text_ok_read by assumption. cbn [mbind option_bind].
  now destruct r.
Qed.

Lemma rows_of_records table :
  Forall exportable table ->
  mapM Reader.row_of_record (List.map row_fields table) = Some table.
Proof.
  induction 1 as [|r table (_ & Hr & _) _ IH]; [reflexivity|].
  cbn [List.map mapM]. rewrite row_of_record_fields by assumption.
  cbn [mbind option_bind]. rewrite IH. reflexivity.
Qed.

(** ** The text of the export can be encoded *)

Lemma scalar_digits d : forallb scalar (PyRepr.digits_of_uint d) = true.
Proof. induction d; cbn [PyRepr.digits_of_uint forallb]; now rewrite ?IHd. Qed.

Lemma scalar_str_of_int z : forallb scalar (PyRepr.str_of_int z) = true.
Proof.
  unfold PyRepr.str_of_int. destruct (Z.to_int z); cbn [forallb];
    now rewrite scalar_digits.
Qed.

Lemma scalar_escape f :
  forallb scalar f = true -> forallb scalar (concat (List.map pd.escape f)) = true.
Proof.
  induction f as [|c f IH]; [reflexivity|]. cbn [forallb List.map concat].
  intros H. apply andb_true_iff in H as [Hc Hf].
  rewrite forallb_app, IH by assumption. unfold pd.escape.
  destruct (c =? pd.quotechar)%N; cbn [forallb]; now rewrite ?Hc.
Qed.

Lemma scalar_quote_minimal f :
  forallb scalar f = true -> forallb scalar (pd.quote_minimal f) = true.
Proof.
  intros H. unfold pd.quote_minimal. destruct (existsb pd.special f); [|exact H].
  cbn [forallb]. rewrite forallb_app, scalar_escape by assumption. reflexivity.
Qed.

Lemma scalar_writerow3 a b c :
  forallb scalar a = true -> forallb scalar b = true -> forallb scalar c = true ->
  forallb scalar (pd.writerow [a; b; c]) = true.
Proof.
  intros Ha Hb Hc. unfold pd.writerow. cbn [List.map Py.join].
  rewrite !forallb_app, !scalar_quote_minimal by assumption. reflexivity.
Qed.

Lemma scalar_csv table :
  Forall exportable table ->
  forallb scalar (pd.writerow header ++ concat (List.map csv_line table)) = true.
Proof.
  intros H. rewrite forallb_app. apply andb_true_intro. split; [reflexivity|].
  induction H as [|r table (Hw & Hf & _) _ IH]; [reflexivity|].
  cbn [List.map concat]. rewrite forallb_app, IH, andb_true_r.
  apply scalar_writerow3;
    [exact Hw|apply scalar_str_of_int|now apply float_text_ok_scalar].
Qed.

(** Any table of exportable rows is exported and read back as it is. *)
Lemma export_round_trip table :
  table <> [] ->
  Forall exportable table ->
  exists b,
    export_csv table = Ok b
    /\ Reader.decode b = Some (pd.writerow header ++ concat (List.map csv_line table))
    /\ Reader.read_csv b = Some (header, table).
Proof.
  intros Hne Hex.
  assert (Hnan : Forall (fun r => Normalized_Frequency r <> S754_nan) table).
  { eapply Forall_impl; [exact Hex|]. now intros r (_ & _ & H). }
  destruct (utf8_round _ (scalar_csv table Hex)) as (b & Hb & Hd).
  exists b. unfold export_csv. rewrite to_csv_table, Hb by assumption.
  split; [reflexivity|]. split; [exact Hd|].
  unfold Reader.read_csv. rewrite Hd. cbn [mbind option_bind].
  rewrite records_csv. cbn [mbind option_bind].
  rewrite rows_of_records by assumption. reflexivity.
Qed.

Lemma float_text_ok_cents n :
  0 < n <= 10000 -> float_text_ok (PyFloat.of_decimal false n (-2)) = true.
Proof.
  intros Hn. pose proof cents_text_ok_all as H.
  rewrite forallb_forall in H. specialize (H (Z.to_nat n)).
  rewrite Z2Nat.id in H by lia. apply H. apply in_seq. lia.
Qed.

Lemma float_text_ok_zero s : float_text_ok (S754_zero s) = true.
Proof. destruct s; vm_compute; reflexivity. Qed.

Lemma percentage_exportable freq :
  PyFloat.valid freq = true ->
  PyFloat.leb PyFloat.zero freq = true ->
  PyFloat.leb freq PyFloat.one = true ->
  float_text_ok (PyFloat.round (PyFloat.mul freq (PyFloat.of_int 100)) 2) = true
  /\ PyFloat.round (PyFloat.mul freq (PyFloat.of_int 100)) 2 <> S754_nan.
Proof.
  intros Hv H0 H1. pose proof (percentage_range freq Hv H0 H1) as Hle.
  split.
  - destruct (round_cents _ (mul_hundred_le_hundred freq Hv H0 H1))
      as [[s ->]|(n & Hn & ->)];
      [apply float_text_ok_zero|now apply float_text_ok_cents].
  - intros E. rewrite E in Hle. exact Hle.
Qed.

Lemma top10_nonempty data : data <> [] -> top10 data <> [].
Proof.
  intros H E. apply (f_equal (@length Row)) in E.
  unfold top10 in E. rewrite length_take in E.
  rewrite <- (Permutation_length (sorted_reverse_perm Raw_Count data)) in E.
  destruct data; [congruence|]. cbn in E. lia.
Qed.

(** C5. When the renderer retained at least one word, its words hold no
    lone surrogate and its weights are doubles between 0 and 1, the
    export succeeds; the exported bytes are the UTF-8 text made of the
    header line [Word,Raw Count,Normalized Frequency (%)] and one line
    per row of the table, at most ten; and reading them back gives that
    header and exactly the rows of the table, in the same order. *)
Theorem csv_export_round_trip
    (normalized_freqs : list (str * float)) (raw_counts : gmap str Z) :
  normalized_freqs <> [] ->
  (forall word freq,
      In (word, freq) normalized_freqs ->
      forallb scalar word = true
      /\ PyFloat.valid freq = true
      /\ PyFloat.leb PyFloat.zero freq = true
      /\ PyFloat.leb freq PyFloat.one = true) ->
  exists b,
    export_csv (top10 (freq_data normalized_freqs raw_counts)) = Ok b
    /\ Reader.decode b
       = Some (lit "Word,Raw Count,Normalized Frequency (%)" ++ [10%N]
                 ++ concat (List.map csv_line
                              (top10 (freq_data normalized_freqs raw_counts))))
    /\ (length (top10 (freq_data normalized_freqs raw_counts)) <= 10)%nat
    /\ Reader.read_csv b
       = Some (header, top10 (freq_data normalized_freqs raw_counts)).
Proof.
  intros Hne Hw.
  assert (Hdata : freq_data normalized_freqs raw_counts <> []).
  { intros E. apply (f_equal (@length Row)) in E.
    rewrite freq_data_length in E. destruct normalized_freqs; [congruence|discriminate]. }
  assert (Hex : Forall exportable (top10 (freq_data normalized_freqs raw_counts))).
  { apply List.Forall_forall. intros row Hin.
    apply top10_in, freq_data_in in Hin as (word & freq & Hin & ->).
    destruct (Hw word freq Hin) as (Hs & Hv & H0 & H1).
    destruct (percentage_exportable freq Hv H0 H1) as [Hok Hnan].
    repeat split; assumption. }
  destruct (export_round_trip _ (top10_nonempty _ Hdata) Hex) as (b & Hb & Hd & Hr).
  exists b. split; [exact Hb|]. split; [|split; [|exact Hr]].
  - rewrite Hd. reflexivity.
  - unfold top10. rewrite length_take. lia.
Qed.

Lemma csv_export_round_trip_witness :
  exists b,
    export_csv (top10 (freq_data (words_ Demo.cloud)
                         (process_text Demo.world (lit "cat cat dog")))) = Ok b
    /\ Reader.read_csv b
       = Some (header,
               [ {| Word := Demo.cat; Raw_Count := 2;
                    Normalized_Frequency := PyFloat.of_decimal false 10000 (-2) |};
                 {| Word := Demo.dog; Raw_Count := 1;
                    Normalized_Frequency := PyFloat.of_decimal false 5000 (-2) |} ]).
Proof.
  destruct (csv_export_round_trip (words_ Demo.cloud)
              (process_text Demo.world (lit "cat cat dog")))
    as (b & Hb & _ & _ & Hr).
  - discriminate.
  - intros word freq [E|[E|[]]]; injection E as <- <-; repeat split; reflexivity.
  - exists b. split; [exact Hb|]. rewrite Hr. vm_compute. reflexivity.
Defined.

(** ** The sidebar and the arguments of the renderer *)

Lemma path_join_nonempty a b : a <> [] -> path_join a b <> [].
Proof.
  intros Ha. unfold path_join. destruct b as [|c b].
  - destruct (Py.truthy a && negb (Py.endswith a [47%N])); destruct a; cbn; congruence.
  - assert (H : forall x : str, x = c :: b -> x <> []) by (intros x -> ; discriminate).
    destruct c as [|p]; [destruct (_ && _); destruct a; cbn; congruence|].
    do 6 (try (destruct p as [p|p|]; try (destruct (_ && _); destruct a; cbn; congruence))).
    discriminate.
Qed.

Lemma path_join_fonts b :
  (forall b', b <> 47%N :: b') -> path_join (lit "fonts") b = lit "fonts/" ++ b.
Proof.
  intros H. unfold path_join. destruct b as [|c b]; [reflexivity|].
  destruct c as [|p]; [reflexivity|].
  do 6 (try (destruct p as [p|p|]; try reflexivity)).
  exfalso. now apply (H b).
Qed.

Lemma sidebar_config W i fs t :
  listdir W (lit "fonts") = Some fs ->
  sidebar W i t = (t ++ sidebar_page, Returned (config_of i)).
Proof.
  intros H. unfold sidebar. rewrite !emit_then, H, call_ok, !emit_then.
  unfold mret, Script_ret, config_of. f_equal; [rewrite <- !app_assoc; reflexivity|].
  do 2 f_equal. destruct (Py.eqb (font_choice i) (lit "Default")); cbn [negb]; [reflexivity|].
  destruct (path_join (lit "fonts") (font_choice i)) eqn:E; [|reflexivity].
  now apply path_join_nonempty in E.
Qed.

Lemma run_with_config W seed i fs t2 text :
  listdir W (lit "fonts") = Some fs ->
  acquire_text W i sidebar_page = (t2, Returned text) ->
  app W seed i [] = generate W seed i (config_of i) text t2.
Proof.
  intros Hl Ha. apply app_unfold with sidebar_page; [|exact Ha].
  now apply (sidebar_config W i fs []).
Qed.

Lemma sidebar_without_fonts W i :
  listdir W (lit "fonts") = None ->
  sidebar W i [] = (removelast no_fonts_page, Uncaught (FileNotFoundError (lit "fonts"))).
Proof. intros Hl. unfold sidebar. rewrite !emit_then, Hl, call_raise. reflexivity. Qed.

Lemma run_without_fonts W seed i :
  listdir W (lit "fonts") = None -> streamlit_run W seed i = no_fonts_page.
Proof.
  intros Hl. unfold streamlit_run, app.
  rewrite (bind_uncaught _ _ _ _ _ (sidebar_without_fonts W i Hl)). reflexivity.
Qed.

(** X5. When the fonts directory can be listed, the sidebar shows its
    ten elements and hands the renderer exactly the values of the
    widgets: width, height, background colour, word limit and colour
    map.  The font is absent for the choice "Default"; for any other
    choice it is the path "fonts/<choice>" (unless the choice starts
    with a slash, which [os.path.join] returns alone); the path is
    never empty, so [font_path or None] never discards a chosen font. *)
Theorem sidebar_wires_the_widgets (W : World) i fs t :
  listdir W (lit "fonts") = Some fs ->
  exists cfg,
    sidebar W i t = (t ++ sidebar_page, Returned cfg)
    /\ cfg_width cfg = width i
    /\ cfg_height cfg = height i
    /\ background_color cfg = bg_color i
    /\ cfg_max_words cfg = max_words i
    /\ cfg_colormap cfg = colormap i
    /\ (font_choice i = lit "Default" -> font_path cfg = None)
    /\ (font_choice i <> lit "Default" ->
        exists p, font_path cfg = Some p /\ p <> []
                  /\ ((forall rest, font_choice i <> 47%N :: rest) ->
                      p = lit "fonts/" ++ font_choice i)).
Proof.
  intros Hl. exists (config_of i). split; [now apply sidebar_config with fs|].
  do 5 (split; [reflexivity|]). unfold config_of. cbn [font_path].
  split.
  - intros ->. reflexivity.
  - intros Hd. apply str_eqb_neq in Hd. rewrite Hd.
    exists (path_join (lit "fonts") (font_choice i)). split; [reflexivity|].
    split; [apply path_join_nonempty; discriminate|].
    intros Hs. now apply path_join_fonts.
Qed.

Lemma sidebar_wires_the_widgets_witness :
  exists cfg,
    sidebar Demo.world Demo.inputs [] = (sidebar_page, Returned cfg)
    /\ cfg_width cfg = 800 /\ font_path cfg = None.
Proof.
  destruct (sidebar_wires_the_widgets Demo.world Demo.inputs
              [lit "Roboto.ttf"; lit "README.md"] [] eq_refl)
    as (cfg & Hs & Hw & _ & _ & _ & _ & Hf & _).
  exists cfg. split; [exact Hs|]. split; [exact Hw|]. apply Hf. reflexivity.
Defined.

(** X6. When the fonts directory cannot be listed, the run stops in the
    sidebar: the page holds the title, the header and the five widgets
    above the font selector, then the error box of the
    FileNotFoundError; no font, shape, mask or input widget, no button
    and no result is shown, whatever the text and the button. *)
Theorem missing_fonts_directory_stops_the_run (W : World) seed i :
  listdir W (lit "fonts") = None ->
  app W seed i [] = (removelast no_fonts_page, Uncaught (FileNotFoundError (lit "fonts")))
  /\ streamlit_run W seed i = no_fonts_page
  /\ ~ In generate_button (streamlit_run W seed i)
  /\ existsb is_artifact (streamlit_run W seed i) = false.
Proof.
  intros Hl. rewrite (run_without_fonts W seed i Hl).
  split; [|split; [reflexivity|split; [|reflexivity]]].
  - unfold app. now rewrite (bind_uncaught _ _ _ _ _ (sidebar_without_fonts W i Hl)).
  - cbn. intros H. repeat (destruct H as [H|H]; [discriminate H|]). exact H.
Qed.

Lemma missing_fonts_directory_stops_the_run_witness :
  streamlit_run Demo2.no_fonts 3 Demo.inputs = no_fonts_page.
Proof.
  apply (missing_fonts_directory_stops_the_run Demo2.no_fonts 3 Demo.inputs eq_refl).
Defined.

(** ** PDF mode without a document *)

(** X7. In PDF mode with no file uploaded the text stays empty: the run
    shows the sidebar, the input header, the two input widgets and the
    button, and ends there without an error, also when the button is
    pressed and whatever was typed in the text area before. *)
Theorem pdf_mode_without_upload_generates_nothing (W : World) seed i fs :
  listdir W (lit "fonts") = Some fs ->
  input_method i = lit "PDF Upload" ->
  uploaded_pdf i = None ->
  app W seed i [] = (sidebar_page ++ pdf_input_page ++ [generate_button], Returned tt)
  /\ streamlit_run W seed i = sidebar_page ++ pdf_input_page ++ [generate_button].
Proof.
  intros Hl Hm Hu.
  assert (Ha : acquire_text W i sidebar_page = (sidebar_page ++ pdf_input_page, Returned [])).
  { unfold acquire_text. rewrite !emit_then, Hm.
    change (Py.eqb (lit "PDF Upload") (lit "Text")) with false.
    change (Py.eqb (lit "PDF Upload") (lit "PDF Upload")) with true.
    cbv iota. rewrite emit_then, Hu. unfold mret, Script_ret.
    rewrite <- !app_assoc. reflexivity. }
  assert (Happ : app W seed i []
                 = (sidebar_page ++ pdf_input_page ++ [generate_button], Returned tt)).
  { rewrite (run_with_config W seed i fs _ _ Hl Ha), generate_closed.
    - now rewrite <- app_assoc.
    - apply andb_false_r. }
  split; [exact Happ|]. now apply page_of_returned.
Qed.

Lemma pdf_mode_without_upload_generates_nothing_witness :
  streamlit_run Demo.world 3 Demo2.pdf_without_upload
  = sidebar_page ++ pdf_input_page ++ [generate_button].
Proof.
  apply (pdf_mode_without_upload_generates_nothing Demo.world 3
           Demo2.pdf_without_upload
           [lit "Roboto.ttf"; lit "README.md"] eq_refl eq_refl eq_refl).
Defined.

(** ** Failures of the generation *)

Lemma generate_render_error W seed i cfg text t mask e :
  button i = true ->
  forallb Py.isspace text = false ->
  load_mask W (uploaded_mask i) (shape i) = Ok mask ->
  WordCloud_generate W seed cfg mask text = Raise e ->
  generate W seed i cfg text t = (t ++ [generate_button], Uncaught e).
Proof.
  intros Hb Ht Hm Hg. unfold generate. rewrite emit_then, Hb.
  destruct (Py.truthy (Py.strip text)) eqn:G;
    [|apply truthy_strip_false in G; congruence].
  cbn [andb]. now rewrite Hm, call_ok, Hg, call_raise.
Qed.

(** X3. When the button is pressed, the text is not blank and the mask
    loads, an exception of the renderer (such as the ValueError of a
    text with no word to draw) is not caught: the run stops there, and
    the page ends with the button followed by the error box, with no
    image, table, chart or download. *)
Theorem renderer_failure_is_reported (W : World) seed i fs t2 text mask e :
  listdir W (lit "fonts") = Some fs ->
  acquire_text W i sidebar_page = (t2, Returned text) ->
  button i = true ->
  forallb Py.isspace text = false ->
  load_mask W (uploaded_mask i) (shape i) = Ok mask ->
  WordCloud_generate W seed (config_of i) mask text = Raise e ->
  app W seed i [] = (t2 ++ [generate_button], Uncaught e)
  /\ streamlit_run W seed i = t2 ++ [generate_button; exception e]
  /\ existsb is_artifact (streamlit_run W seed i) = false.
Proof.
  intros Hl Ha Hb Ht Hm Hg.
  assert (Happ : app W seed i [] = (t2 ++ [generate_button], Uncaught e)).
  { rewrite (run_with_config W seed i fs t2 text Hl Ha).
    now apply generate_render_error with mask. }
  assert (Hpage : streamlit_run W seed i = t2 ++ [generate_button; exception e]).
  { rewrite (page_of_uncaught _ _ _ _ _ Happ). now rewrite <- app_assoc. }
  split; [exact Happ|]. split; [exact Hpage|].
  rewrite Hpage. apply existsb_artifact_app; [|reflexivity].
  now apply acquire_after_sidebar with W i (Returned text).
Qed.

Lemma renderer_failure_is_reported_witness :
  streamlit_run Demo2.no_words 3 (Demo.with_text (lit "the and of") Demo.inputs)
  = Demo2.text_page (lit "the and of")
    ++ [ generate_button;
         exception (ValueError
                      (lit "We need at least 1 word to plot a word cloud, got 0.")) ].
Proof.
  apply (renderer_failure_is_reported Demo2.no_words 3
           (Demo.with_text (lit "the and of") Demo.inputs)
           [lit "Roboto.ttf"; lit "README.md"]
           (Demo2.text_page (lit "the and of")) (lit "the and of") None
           (ValueError (lit "We need at least 1 word to plot a word cloud, got 0."))
           eq_refl eq_refl eq_refl eq_refl eq_refl eq_refl).
Defined.

(** X4. An uploaded mask that Pillow cannot decode makes [load_mask]
    raise, whatever built-in shape is selected: the loader does not fall
    back to the shape.  With the button pressed and a text that is not
    blank, the page ends with the button followed by the error box of
    the UnidentifiedImageError, and shows no result. *)
Theorem invalid_upload_is_not_replaced_by_the_shape
    (W : World) seed i fs t2 text f :
  uploaded_mask i = Some f ->
  decode_image W f = None ->
  listdir W (lit "fonts") = Some fs ->
  acquire_text W i sidebar_page = (t2, Returned text) ->
  button i = true ->
  forallb Py.isspace text = false ->
  (forall shape, load_mask W (Some f) shape = Raise UnidentifiedImageError)
  /\ streamlit_run W seed i
     = t2 ++ [generate_button; exception UnidentifiedImageError]
  /\ existsb is_artifact (streamlit_run W seed i) = false.
Proof.
  intros Hu Hd Hl Ha Hb Ht.
  assert (Hm : forall shape, load_mask W (Some f) shape = Raise UnidentifiedImageError).
  { intros shape. unfold load_mask, Image_open_stream. now rewrite Hd. }
  assert (Happ : app W seed i [] = (t2 ++ [generate_button], Uncaught UnidentifiedImageError)).
  { rewrite (run_with_config W seed i fs t2 text Hl Ha).
    apply generate_mask_error; [assumption|assumption|]. rewrite Hu. apply Hm. }
  assert (Hpage : streamlit_run W seed i
                  = t2 ++ [generate_button; exception UnidentifiedImageError]).
  { rewrite (page_of_uncaught _ _ _ _ _ Happ). now rewrite <- app_assoc. }
  split; [exact Hm|]. split; [exact Hpage|].
  rewrite Hpage. apply existsb_artifact_app; [|reflexivity].
  now apply acquire_after_sidebar with W i (Returned text).
Qed.

Lemma invalid_upload_is_not_replaced_by_the_shape_witness :
  load_mask Demo.world (Some [Byte.x00]) (lit "Circle") = Raise UnidentifiedImageError
  /\ load_mask Demo.world None (lit "Circle") = Ok (Some (np.array Demo.circle))
  /\ streamlit_run Demo.world 3
       (Demo.with_mask (Some [Byte.x00]) (lit "Circle") Demo.inputs)
     = Demo2.text_page (lit "cat cat dog")
       ++ [generate_button; exception UnidentifiedImageError].
Proof.
  destruct (invalid_upload_is_not_replaced_by_the_shape Demo.world 3
              (Demo.with_mask (Some [Byte.x00]) (lit "Circle") Demo.inputs)
              [lit "Roboto.ttf"; lit "README.md"]
              (Demo2.text_page (lit "cat cat dog")) (lit "cat cat dog") [Byte.x00]
              eq_refl eq_refl eq_refl eq_refl eq_refl eq_refl) as (Hm & Hp & _).
  split; [apply Hm|]. split; [reflexivity|exact Hp].
Defined.

(** ** The script shows no error box itself *)

Ltac quiet_done :=
  do 2 eexists; unfold mret, Script_ret, emit;
  rewrite <- ?app_assoc; split; reflexivity.

Lemma sidebar_quiet W i t :
  exists evs o, sidebar W i t = (t ++ evs, o) /\ existsb is_exception evs = false.
Proof.
  unfold sidebar. rewrite !emit_then.
  destruct (listdir W (lit "fonts")) as [fs|].
  - rewrite call_ok, !emit_then. quiet_done.
  - rewrite call_raise. quiet_done.
Qed.

Lemma acquire_text_quiet W i t :
  exists evs o, acquire_text W i t = (t ++ evs, o) /\ existsb is_exception evs = false.
Proof.
  unfold acquire_text. rewrite !emit_then.
  destruct (Py.eqb (input_method i) (lit "Text")); [rewrite emit_then; quiet_done|].
  destruct (Py.eqb (input_method i) (lit "PDF Upload")); [|quiet_done].
  rewrite emit_then. destruct (uploaded_pdf i) as [stream|]; [|quiet_done].
  destruct (fitz_open W stream) as [doc|].
  - rewrite call_ok, !emit_then. quiet_done.
  - rewrite call_raise. quiet_done.
Qed.

Lemma generate_quiet W seed i cfg text t :
  exists evs o,
    generate W seed i cfg text t = (t ++ evs, o) /\ existsb is_exception evs = false.
Proof.
  unfold generate. rewrite emit_then.
  destruct (button i && Py.truthy (Py.strip text)); [|quiet_done].
  destruct (load_mask W (uploaded_mask i) (shape i)) as [mask|e];
    [rewrite call_ok|rewrite call_raise; quiet_done].
  destruct (WordCloud_generate W seed cfg mask text) as [wc|e];
    [rewrite call_ok|rewrite call_raise; quiet_done].
  rewrite !emit_then. cbv zeta. rewrite ?emit_then.
  destruct (export_csv _) as [csv|e];
    [rewrite call_ok|rewrite call_raise; quiet_done].
  rewrite !emit_then.
  destruct (pd.getitem _ (lit "Word")) as [y|e];
    [rewrite call_ok|rewrite call_raise; quiet_done].
  destruct (pd.getitem _ (lit "Raw Count")) as [widths|e];
    [rewrite call_ok|rewrite call_raise; quiet_done].
  quiet_done.
Qed.

Lemma app_quiet W seed i :
  exists t o, app W seed i [] = (t, o) /\ existsb is_exception t = false.
Proof.
  unfold app.
  destruct (sidebar_quiet W i []) as (e1 & o1 & H1 & Q1). cbn [List.app] in H1.
  destruct o1 as [cfg|e]; [|rewrite (bind_uncaught _ _ _ _ _ H1); eauto].
  rewrite (bind_returned _ _ _ _ _ H1).
  destruct (acquire_text_quiet W i e1) as (e2 & o2 & H2 & Q2).
  destruct o2 as [text|e].
  - rewrite (bind_returned _ _ _ _ _ H2).
    destruct (generate_quiet W seed i cfg text (e1 ++ e2)) as (e3 & o3 & H3 & Q3).
    rewrite H3. do 2 eexists. split; [reflexivity|].
    now rewrite !existsb_app, Q1, Q2, Q3.
  - rewrite (bind_uncaught _ _ _ _ _ H2). do 2 eexists. split; [reflexivity|].
    now rewrite existsb_app, Q1, Q2.
Qed.

(** ** A generation that succeeds *)

Lemma getitem_word table :
  table <> [] ->
  pd.getitem (pd.DataFrame (List.map Row_items table)) (lit "Word")
  = Ok (List.map (fun r => pd.CStr (Word r)) table).
Proof.
  intros Hne. unfold pd.getitem, pd.DataFrame. cbn [pd.columns pd.values].
  destruct table as [|r0 table']; [congruence|].
  set (table := r0 :: table') in *.
  change (pd.index_of (lit "Word") (List.map fst (Row_items r0))) with (Some 0%nat).
  f_equal. clear Hne. induction table as [|r table IH]; [reflexivity|].
  cbn [List.map omap list_omap] in *. rewrite IH. reflexivity.
Qed.

Lemma getitem_raw_count table :
  table <> [] ->
  pd.getitem (pd.DataFrame (List.map Row_items table)) (lit "Raw Count")
  = Ok (List.map (fun r => pd.CInt (Raw_Count r)) table).
Proof.
  intros Hne. unfold pd.getitem, pd.DataFrame. cbn [pd.columns pd.values].
  destruct table as [|r0 table']; [congruence|].
  set (table := r0 :: table') in *.
  change (pd.index_of (lit "Raw Count") (List.map fst (Row_items r0))) with (Some 1%nat).
  f_equal. clear Hne. induction table as [|r table IH]; [reflexivity|].
  cbn [List.map omap list_omap] in *. rewrite IH. reflexivity.
Qed.

Lemma table_nonempty W (wc : WordCloud) text :
  words_ wc <> [] -> top10 (freq_data (words_ wc) (process_text W text)) <> [].
Proof.
  intros Hw. apply top10_nonempty. intros E. apply (f_equal (@length Row)) in E.
  rewrite freq_data_length in E. destruct (words_ wc); [congruence|discriminate].
Qed.

Lemma generate_success W seed i cfg text t mask wc csv :
  button i = true ->
  forallb Py.isspace text = false ->
  load_mask W (uploaded_mask i) (shape i) = Ok mask ->
  WordCloud_generate W seed cfg mask text = Ok wc ->
  words_ wc <> [] ->
  export_csv (top10 (freq_data (words_ wc) (process_text W text))) = Ok csv ->
  generate W seed i cfg text t
  = (t ++ result_page W i wc (top10 (freq_data (words_ wc) (process_text W text))) csv,
     Returned tt).
Proof.
  intros Hb Ht Hm Hg Hw Hc. unfold generate. rewrite emit_then, Hb.
  destruct (Py.truthy (Py.strip text)) eqn:G;
    [|apply truthy_strip_false in G; congruence].
  cbn [andb]. rewrite Hm, call_ok, Hg, call_ok, !emit_then. cbv zeta.
  rewrite ?emit_then, Hc, call_ok, !emit_then.
  rewrite getitem_word, call_ok, getitem_raw_count, call_ok
    by now apply table_nonempty.
  unfold emit, result_page, rendered_page. cbn [List.app].
  rewrite <- !app_assoc. reflexivity.
Qed.

Lemma generate_rendered W seed i cfg text t mask wc :
  button i = true ->
  forallb Py.isspace text = false ->
  load_mask W (uploaded_mask i) (shape i) = Ok mask ->
  WordCloud_generate W seed cfg mask text = Ok wc ->
  exists evs o,
    generate W seed i cfg text t
    = (t ++ rendered_page W i wc (top10 (freq_data (words_ wc) (process_text W text)))
         ++ evs, o).
Proof.
  intros Hb Ht Hm Hg. unfold generate. rewrite emit_then, Hb.
  destruct (Py.truthy (Py.strip text)) eqn:G;
    [|apply truthy_strip_false in G; congruence].
  cbn [andb]. rewrite Hm, call_ok, Hg, call_ok, !emit_then. cbv zeta.
  rewrite ?emit_then. unfold rendered_page.
  destruct (export_csv _) as [csv|e];
    [rewrite call_ok|rewrite call_raise; exists [];
       eexists; rewrite <- ?app_assoc; reflexivity].
  rewrite !emit_then.
  destruct (pd.getitem _ (lit "Word")) as [y|e];
    [rewrite call_ok|rewrite call_raise; do 2 eexists; rewrite <- ?app_assoc; reflexivity].
  destruct (pd.getitem _ (lit "Raw Count")) as [widths|e];
    [rewrite call_ok|rewrite call_raise; do 2 eexists; rewrite <- ?app_assoc; reflexivity].
  do 2 eexists. unfold emit. rewrite <- ?app_assoc. reflexivity.
Qed.

Lemma table_exportable nf rc :
  (forall word freq,
      In (word, freq) nf ->
      forallb scalar word = true
      /\ PyFloat.valid freq = true
      /\ PyFloat.leb PyFloat.zero freq = true
      /\ PyFloat.leb freq PyFloat.one = true) ->
  Forall exportable (top10 (freq_data nf rc)).
Proof.
  intros Hw. apply List.Forall_forall. intros row Hin.
  apply top10_in, freq_data_in in Hin as (word & freq & Hin & ->).
  destruct (Hw word freq Hin) as (Hs & Hv & H0 & H1).
  destruct (percentage_exportable freq Hv H0 H1) as [Hok Hnan].
  repeat split; assumption.
Qed.

Lemma export_text table csv :
  table <> [] ->
  Forall exportable table ->
  export_csv table = Ok csv ->
  PyRepr.utf8 (lit "Word,Raw Count,Normalized Frequency (%)" ++ [10%N]
                 ++ concat (List.map csv_line table)) = Some csv.
Proof.
  intros Hne Hex Hc.
  assert (Hnan : Forall (fun r => Normalized_Frequency r <> S754_nan) table).
  { eapply Forall_impl; [exact Hex|]. now intros r (_ & _ & H). }
  unfold export_csv in Hc. rewrite to_csv_table in Hc by assumption.
  change (pd.writerow header)
    with (lit "Word,Raw Count,Normalized Frequency (%)" ++ [10%N]) in Hc.
  rewrite <- app_assoc in Hc.
  destruct (PyRepr.utf8 _) as [b|]; [|discriminate]. now injection Hc as ->.
Qed.

(** X1. A run that gets its text, with the button pressed, a text that
    is not blank, a mask that loads and a renderer that returns a cloud
    with at least one word (words without lone surrogate, weights
    between 0 and 1) ends normally, and the page is the input part
    followed by exactly: the button, the image at width/100 by
    height/100 inches, the PNG download "word_cloud.png", the table
    header, the table, the CSV download "word_frequencies.csv", the
    chart title and one bar chart.  The renderer was called with the
    values of the widgets and the text as acquired (not stripped); the
    table, the CSV bytes and the chart show the same rows: the CSV is
    the UTF-8 text of the header line and one line per row of the
    table, the bars are the words and raw counts of the table in its
    order.  No error box is shown. *)
Theorem successful_run_page (W : World) seed i fs t2 text mask wc :
  listdir W (lit "fonts") = Some fs ->
  acquire_text W i sidebar_page = (t2, Returned text) ->
  button i = true ->
  forallb Py.isspace text = false ->
  load_mask W (uploaded_mask i) (shape i) = Ok mask ->
  WordCloud_generate W seed (config_of i) mask text = Ok wc ->
  words_ wc <> [] ->
  (forall word freq,
      In (word, freq) (words_ wc) ->
      forallb scalar word = true
      /\ PyFloat.valid freq = true
      /\ PyFloat.leb PyFloat.zero freq = true
      /\ PyFloat.leb freq PyFloat.one = true) ->
  exists csv,
    app W seed i []
    = (t2 ++ result_page W i wc
               (top10 (freq_data (words_ wc) (process_text W text))) csv,
       Returned tt)
    /\ streamlit_run W seed i
       = t2 ++ result_page W i wc
                 (top10 (freq_data (words_ wc) (process_text W text))) csv
    /\ PyRepr.utf8
         (lit "Word,Raw Count,Normalized Frequency (%)" ++ [10%N]
            ++ concat (List.map csv_line
                         (top10 (freq_data (words_ wc) (process_text W text)))))
       = Some csv
    /\ existsb is_exception (streamlit_run W seed i) = false.
Proof.
  intros Hl Ha Hb Ht Hm Hg Hne Hw.
  pose proof (table_nonempty W wc text Hne) as Htable.
  pose proof (table_exportable _ (process_text W text) Hw) as Hex.
  destruct (export_round_trip _ Htable Hex) as (csv & Hc & _ & _).
  exists csv.
  assert (Happ : app W seed i []
                 = (t2 ++ result_page W i wc
                            (top10 (freq_data (words_ wc) (process_text W text))) csv,
                    Returned tt)).
  { rewrite (run_with_config W seed i fs t2 text Hl Ha).
    now apply generate_success with mask. }
  split; [exact Happ|]. rewrite (page_of_returned _ _ _ _ Happ).
  split; [reflexivity|]. split; [now apply export_text|].
  destruct (app_quiet W seed i) as (t & o & H & Q).
  rewrite Happ in H. injection H as <- _. exact Q.
Qed.

Lemma successful_run_page_witness :
  exists csv,
    streamlit_run Demo.world 3 Demo.inputs
    = Demo2.text_page (lit "cat cat dog")
      ++ result_page Demo.world Demo.inputs Demo.cloud Demo2.table csv
    /\ PyRepr.utf8
         (lit "Word,Raw Count,Normalized Frequency (%)" ++ [10%N]
            ++ lit "cat,2,100.0" ++ [10%N] ++ lit "dog,1,50.0" ++ [10%N])
       = Some csv.
Proof.
  destruct (successful_run_page Demo.world 3 Demo.inputs
              [lit "Roboto.ttf"; lit "README.md"]
              (Demo2.text_page (lit "cat cat dog")) (lit "cat cat dog") None Demo.cloud
              eq_refl eq_refl eq_refl eq_refl eq_refl eq_refl)
    as (csv & _ & Hp & Hr & _).
  - discriminate.
  - intros word freq [E|[E|[]]]; injection E as <- <-; repeat split; reflexivity.
  - exists csv. split; [exact Hp|]. rewrite <- Hr. vm_compute. reflexivity.
Defined.

(** X2. A page shows an image, a table, a chart or a download only if
    every stage before them went through: the fonts directory was
    listed, the text was acquired, the button was pressed, the text is
    not blank, the mask loaded and the renderer returned a cloud.  The
    page then continues, after the input part, with the button, the
    image of that cloud, its PNG download, the table header and the
    table of that cloud, whatever happens afterwards. *)
Theorem results_only_after_rendering (W : World) seed i :
  existsb is_artifact (streamlit_run W seed i) = true ->
  exists fs t2 text mask wc rest,
    listdir W (lit "fonts") = Some fs
    /\ acquire_text W i sidebar_page = (t2, Returned text)
    /\ button i = true
    /\ forallb Py.isspace text = false
    /\ load_mask W (uploaded_mask i) (shape i) = Ok mask
    /\ WordCloud_generate W seed (config_of i) mask text = Ok wc
    /\ streamlit_run W seed i
       = t2 ++ rendered_page W i wc
                 (top10 (freq_data (words_ wc) (process_text W text)))
            ++ rest.
Proof.
  intros Hart.
  destruct (listdir W (lit "fonts")) as [fs|] eqn:Hl.
  2:{ rewrite (run_without_fonts W seed i Hl) in Hart. discriminate. }
  destruct (acquire_text W i sidebar_page) as [t2 [text|e]] eqn:Ha.
  2:{ pose proof (acquire_after_sidebar W i t2 _ Ha) as Ht2.
      rewrite (page_of_uncaught _ _ _ _ _ (run_uncaught_early W seed i fs t2 e Hl Ha)),
        existsb_app, Ht2 in Hart.
      discriminate. }
  pose proof (run_with_config W seed i fs t2 text Hl Ha) as Happ.
  pose proof (acquire_after_sidebar W i t2 _ Ha) as Ht2.
  assert (Hno : forall e, app W seed i [] = (t2 ++ [generate_button], e) -> False).
  { intros e He. unfold streamlit_run in Hart. rewrite He in Hart.
    destruct e as [u|e];
      rewrite ?existsb_app, Ht2 in Hart; cbn in Hart; discriminate. }
  destruct (button i && Py.truthy (Py.strip text)) eqn:G.
  2:{ exfalso. apply (Hno (Returned tt)). rewrite Happ. now apply generate_closed. }
  apply andb_true_iff in G as [Hb G].
  assert (Ht : forallb Py.isspace text = false).
  { destruct (forallb Py.isspace text) eqn:Hs; [|reflexivity].
    apply truthy_strip_false in Hs. congruence. }
  destruct (load_mask W (uploaded_mask i) (shape i)) as [mask|e] eqn:Hm.
  2:{ exfalso. apply (Hno (Uncaught e)). rewrite Happ. now apply generate_mask_error. }
  destruct (WordCloud_generate W seed (config_of i) mask text) as [wc|e] eqn:Hg.
  2:{ exfalso. apply (Hno (Uncaught e)). rewrite Happ.
      now apply generate_render_error with mask. }
  destruct (generate_rendered W seed i (config_of i) text t2 mask wc Hb Ht Hm Hg)
    as (evs & o & Hgen).
  rewrite Hgen in Happ.
  exists fs, t2, text, mask, wc.
  exists (match o with Returned _ => evs | Uncaught e => evs ++ [exception e] end).
  repeat (split; [first [reflexivity|assumption]|]).
  unfold streamlit_run. rewrite Happ.
  destruct o as [u|e]; [reflexivity|]. now rewrite <- !app_assoc.
Qed.

Lemma results_only_after_rendering_witness :
  exists mask wc,
    button Demo.inputs = true
    /\ load_mask Demo.world (uploaded_mask Demo.inputs) (shape Demo.inputs) = Ok mask
    /\ WordCloud_generate Demo.world 3 (config_of Demo.inputs) mask (lit "cat cat dog")
       = Ok wc.
Proof.
  destruct (results_only_after_rendering Demo.world 3 Demo.inputs)
    as (fs & t2 & text & mask & wc & rest & _ & Ha & Hb & _ & Hm & Hg & _).
  - vm_compute. reflexivity.
  - exists mask, wc. split; [exact Hb|]. split; [exact Hm|].
    assert (E : text = lit "cat cat dog");
      [|rewrite <- E; exact Hg].
    assert (Ha' : acquire_text Demo.world Demo.inputs sidebar_page
                  = (Demo2.text_page (lit "cat cat dog"), Returned (lit "cat cat dog")))
      by reflexivity.
    rewrite Ha' in Ha. now injection Ha as _ <-.
Defined.

(** ** The rows that are left out of the table *)

Lemma strongly_sorted_app_cross {A} (R : A -> A -> Prop) l1 l2 :
  StronglySorted R (l1 ++ l2) -> forall a b, In a l1 -> In b l2 -> R a b.
Proof.
  induction l1 as [|x l1 IH]; intros H a b Ha Hb; [destruct Ha|].
  cbn in H. apply StronglySorted_inv in H as [Hs Hx].
  destruct Ha as [<-|Ha].
  - rewrite List.Forall_forall in Hx. apply Hx, in_or_app. now right.
  - now apply IH.
Qed.

(** X8. The table is a selection of the rows built from the renderer's
    words: together with the rows it leaves out it is a rearrangement
    of all of them, it leaves out exactly those beyond the tenth, no
    row left out has a larger raw count than a row kept, and with at
    most ten words nothing is left out. *)
Theorem table_keeps_the_largest_counts
    (normalized_freqs : list (str * float)) (raw_counts : gmap str Z) :
  exists rest,
    Permutation (top10 (freq_data normalized_freqs raw_counts) ++ rest)
                (freq_data normalized_freqs raw_counts)
    /\ length (top10 (freq_data normalized_freqs raw_counts))
       = Nat.min 10 (length normalized_freqs)
    /\ length rest = (length normalized_freqs - 10)%nat
    /\ forall kept dropped,
         In kept (top10 (freq_data normalized_freqs raw_counts)) ->
         In dropped rest ->
         Raw_Count dropped <= Raw_Count kept.
Proof.
  set (data := freq_data normalized_freqs raw_counts).
  exists (drop 10 (Py.sorted Raw_Count true data)). unfold top10.
  assert (Hlen : length (Py.sorted Raw_Count true data) = length normalized_freqs).
  { rewrite <- (Permutation_length (sorted_reverse_perm Raw_Count data)).
    apply freq_data_length. }
  split; [rewrite take_drop; symmetry; apply sorted_reverse_perm|].
  split; [rewrite length_take; lia|].
  split; [rewrite length_drop; lia|].
  intros kept dropped Hk Hd.
  pose proof (sorted_reverse_desc Raw_Count data) as Hs.
  rewrite <- (take_drop 10) in Hs.
  pose proof (strongly_sorted_app_cross _ _ _ Hs kept dropped Hk Hd) as H.
  cbn in H. lia.
Qed.

(** ** Determinism *)

Lemma filter_no_artifact t : existsb is_artifact t = false -> List.filter is_artifact t = [].
Proof.
  induction t as [|ev t IH]; [reflexivity|]. cbn [existsb List.filter].
  destruct (is_artifact ev); [discriminate|]. exact IH.
Qed.

Lemma outputs_of_run W seed i t out o :
  existsb is_artifact t = false ->
  app W seed i [] = (t ++ out, o) ->
  outputs (streamlit_run W seed i) = List.filter is_artifact out.
Proof.
  intros Ht H. unfold outputs, streamlit_run. rewrite H.
  destruct o as [u|e]; rewrite ?List.filter_app, (filter_no_artifact t Ht);
    cbn [List.filter is_artifact List.app]; rewrite ?app_nil_r; reflexivity.
Qed.

Lemma generate_agree W1 W2 s1 s2 i1 i2 cfg text t1 t2 :
  (forall mask, WordCloud_generate W1 s1 cfg mask text
                = WordCloud_generate W2 s2 cfg mask text) ->
  process_text W1 text = process_text W2 text ->
  (forall img, save_png W1 img = save_png W2 img) ->
  width i1 = width i2 -> height i1 = height i2 ->
  button i1 = button i2 ->
  load_mask W1 (uploaded_mask i1) (shape i1) = load_mask W2 (uploaded_mask i2) (shape i2) ->
  exists out o,
    generate W1 s1 i1 cfg text t1 = (t1 ++ out, o)
    /\ generate W2 s2 i2 cfg text t2 = (t2 ++ out, o).
Proof.
  intros Hr Hp Hs Hw Hh Hb Hm. unfold generate.
  rewrite !emit_then, Hb, Hm, Hp, Hw, Hh.
  destruct (button i2 && Py.truthy (Py.strip text)).
  2:{ do 2 eexists. unfold mret, Script_ret. split; reflexivity. }
  destruct (load_mask W2 (uploaded_mask i2) (shape i2)) as [mask|e].
  2:{ rewrite !call_raise. do 2 eexists. split; reflexivity. }
  rewrite !call_ok, (Hr mask).
  destruct (WordCloud_generate W2 s2 cfg mask text) as [wc|e].
  2:{ rewrite !call_raise. do 2 eexists. split; reflexivity. }
  rewrite !call_ok, !emit_then, Hs. cbv zeta. rewrite ?emit_then.
  destruct (export_csv _) as [csv|e].
  2:{ rewrite !call_raise. do 2 eexists. rewrite <- ?app_assoc. split; reflexivity. }
  rewrite !call_ok, !emit_then.
  destruct (pd.getitem _ (lit "Word")) as [y|e].
  2:{ rewrite !call_raise. do 2 eexists. rewrite <- ?app_assoc. split; reflexivity. }
  rewrite !call_ok.
  destruct (pd.getitem _ (lit "Raw Count")) as [widths|e].
  2:{ rewrite !call_raise. do 2 eexists. rewrite <- ?app_assoc. split; reflexivity. }
  rewrite !call_ok. unfold emit. do 2 eexists. rewrite <- ?app_assoc. split; reflexivity.
Qed.

(** C9. Two runs give the same outputs when they have the same source
    text and the same configuration, and the renderer is deterministic
    for fixed input.  The runs may be on different machines with the
    same engine, at different states of the random generator, with
    different fonts directories, and may get the text in different ways
    (typed, or extracted from a document); they agree on the text they
    acquire, on the arguments of the renderer, on the button and on the
    mask that is loaded.  Then everything after the input part is the
    same in both runs, event for event, and they end the same way; in
    particular the pages show the same images, tables, charts and
    downloads.  When the generation goes through, these outputs hold
    the image of the cloud the renderer returned and the frequency
    table built from it.  The script passes no random state to the
    renderer, so its determinism is an assumption on the library. *)
Theorem runs_are_deterministic (W1 W2 : World) s1 s2 i1 i2 fs1 fs2 t1 t2 text :
  renderer_deterministic W1 ->
  same_engine W1 W2 ->
  listdir W1 (lit "fonts") = Some fs1 ->
  listdir W2 (lit "fonts") = Some fs2 ->
  acquire_text W1 i1 sidebar_page = (t1, Returned text) ->
  acquire_text W2 i2 sidebar_page = (t2, Returned text) ->
  config_of i1 = config_of i2 ->
  load_mask W1 (uploaded_mask i1) (shape i1) = load_mask W2 (uploaded_mask i2) (shape i2) ->
  button i1 = button i2 ->
  exists out o,
    app W1 s1 i1 [] = (t1 ++ out, o)
    /\ app W2 s2 i2 [] = (t2 ++ out, o)
    /\ outputs (streamlit_run W1 s1 i1) = List.filter is_artifact out
    /\ outputs (streamlit_run W2 s2 i2) = List.filter is_artifact out
    /\ forall mask wc,
         button i1 = true ->
         forallb Py.isspace text = false ->
         load_mask W1 (uploaded_mask i1) (shape i1) = Ok mask ->
         WordCloud_generate W1 s1 (config_of i1) mask text = Ok wc ->
         In (pyplot (imshow (PyFloat.truediv (width i1) 100,
                             PyFloat.truediv (height i1) 100) (to_image wc)))
            (List.filter is_artifact out)
         /\ In (dataframe (top10 (freq_data (words_ wc) (process_text W1 text))))
               (List.filter is_artifact out).
Proof.
  intros Hdet (Hr & Hp & Hs) Hl1 Hl2 Ha1 Ha2 Hc Hm Hb.
  pose proof (run_with_config W1 s1 i1 fs1 t1 text Hl1 Ha1) as Happ1.
  pose proof (run_with_config W2 s2 i2 fs2 t2 text Hl2 Ha2) as Happ2.
  rewrite <- Hc in Happ2.
  destruct (generate_agree W1 W2 s1 s2 i1 i2 (config_of i1) text t1 t2)
    as (out & o & G1 & G2); try assumption.
  - intros mask. rewrite (Hdet s1 s2). apply Hr.
  - apply Hp.
  - exact (f_equal cfg_width Hc).
  - exact (f_equal cfg_height Hc).
  - rewrite G1 in Happ1. rewrite G2 in Happ2. exists out, o.
    split; [exact Happ1|]. split; [exact Happ2|].
    split; [apply outputs_of_run with t1 o;
            [now apply acquire_after_sidebar with W1 i1 (Returned text)|exact Happ1]|].
    split; [apply outputs_of_run with t2 o;
            [now apply acquire_after_sidebar with W2 i2 (Returned text)|exact Happ2]|].
    intros mask wc Hbt Ht Hmask Hwc.
    destruct (generate_rendered W1 s1 i1 (config_of i1) text t1 mask wc Hbt Ht Hmask Hwc)
      as (evs & o' & Hgen).
    rewrite G1 in Hgen. pose proof (f_equal fst Hgen) as E. cbn [fst] in E.
    apply app_inv_head in E. rewrite E, List.filter_app.
    split; apply in_or_app; left; cbn; tauto.
Qed.

Lemma runs_are_deterministic_witness :
  outputs (streamlit_run Demo.world 1 Demo.inputs)
  = outputs (streamlit_run Demo2.other_machine 2
               (Demo.with_mask None (lit "None") (Demo.with_pdf [Byte.x25] Demo.inputs)))
  /\ In (dataframe Demo2.table) (outputs (streamlit_run Demo.world 1 Demo.inputs)).
Proof.
  destruct (runs_are_deterministic Demo.world Demo2.other_machine 1 2 Demo.inputs
              (Demo.with_mask None (lit "None") (Demo.with_pdf [Byte.x25] Demo.inputs))
              [lit "Roboto.ttf"; lit "README.md"] []
              (Demo2.text_page (lit "cat cat dog"))
              (fst (acquire_text Demo2.other_machine
                      (Demo.with_mask None (lit "None")
                         (Demo.with_pdf [Byte.x25] Demo.inputs)) sidebar_page))
              (lit "cat cat dog")
              (fun _ _ _ _ _ => eq_refl)
              (conj (fun _ _ _ _ => eq_refl)
                    (conj (fun _ => eq_refl) (fun _ => eq_refl)))
              eq_refl eq_refl eq_refl eq_refl eq_refl eq_refl eq_refl)
    as (out & o & _ & _ & H1 & H2 & Hin).
  split; [now rewrite H1, H2|]. rewrite H1.
  apply (Hin None Demo.cloud eq_refl eq_refl eq_refl eq_refl).
Defined.
